(** * fact-back: users, authentication and approval handlers

    A shallow embedding of the service and controller code of the
    back-office: [UsersService] (both revisions found in the repository),
    [AuthService], and the approve / reject handlers of [ExpenseController]
    and [InvoiceController].

    Conventions of the embedding.
    - An [async] method returning [Promise<T>] is a computation in the monad
      [M]: it reads and writes the [World] (the two document collections, the
      entropy the libraries draw from, the log of queries sent to the
      database) and either returns a value or throws an [Exception].  State
      written before a [throw] stays written, as in the source.
    - [await] is monadic bind.  A [try] block whose [catch] logs the error
      and throws it again is the identity on results and is not written out;
      neither are the logger calls.
    - A collection is the list of its documents in insertion order;
      [findOne] and [findById] return the first match. *)

From Stdlib Require Import String Ascii List Bool NArith ZArith Lia.
Import ListNotations.
Local Open Scope string_scope.
Local Open Scope list_scope.

(** ** JavaScript values and truthiness *)

Inductive JsValue : Type :=
| JsUndefined
| JsNull
| JsBool (b : bool)
| JsNumber (n : Z)
| JsString (s : string)
| JsObject (repr : string).

(** [ToBoolean] of the language: what [if (v)], [!v], [a && b] and [a || b]
    test. *)
Definition truthy (v : JsValue) : bool :=
  match v with
  | JsUndefined => false
  | JsNull => false
  | JsBool b => b
  | JsNumber n => negb (Z.eqb n 0)
  | JsString s => negb (String.eqb s "")
  | JsObject _ => true
  end.

(** An optional string property ([companyId?: string], [password?: string]):
    [None] is [undefined]. *)
Definition ofOptString (o : option string) : JsValue :=
  match o with
  | None => JsUndefined
  | Some s => JsString s
  end.

Definition truthyStr (o : option string) : bool := truthy (ofOptString o).

(** [o || null] on an optional string, as stored in a document, where [None]
    is [null]. *)
Definition orNull (o : option string) : option string :=
  if truthyStr o then o else None.

(** ** Exceptions *)

Inductive Exception : Type :=
| BadRequestException (message : string)
| NotFoundException (message : string)
| ForbiddenException (message : string)
| UnauthorizedException (message : string)
| TypeError (message : string).

(** HTTP status the framework answers with. *)
Definition getStatus (e : Exception) : nat :=
  match e with
  | BadRequestException _ => 400
  | UnauthorizedException _ => 401
  | ForbiddenException _ => 403
  | NotFoundException _ => 404
  | TypeError _ => 500
  end.

Inductive Result (A : Type) : Type :=
| Ok (value : A)
| Throw (error : Exception).
Arguments Ok {A} value.
Arguments Throw {A} error.

(** ** Roles and documents *)

(** The members of [UserRole] that the sources name. *)
Inductive UserRole : Type :=
| ADMIN | ADMIN2 | COLABORADOR | PROVIDER | USER | COMPANY | ACCOUNTING
| TREASURY.

Definition UserRole_eqb (a b : UserRole) : bool :=
  match a, b with
  | ADMIN, ADMIN | ADMIN2, ADMIN2 | COLABORADOR, COLABORADOR
  | PROVIDER, PROVIDER | USER, USER | COMPANY, COMPANY
  | ACCOUNTING, ACCOUNTING | TREASURY, TREASURY => true
  | _, _ => false
  end.

(** [dto.role === UserRole.X] where the property is optional. *)
Definition roleIs (r : option UserRole) (x : UserRole) : bool :=
  match r with
  | Some r' => UserRole_eqb r' x
  | None => false
  end.

Record UserDocument : Type := mkUser {
  _id : string;
  userId : string;
  firstName : string;
  lastName : string;
  email : string;
  password : string;
  role : UserRole;
  companyId : option string;      (* [None] is [null] *)
  isActive : bool
}.

Record ProviderDocument : Type := mkProvider {
  p_id : string;
  p_firstName : string;
  p_lastName : string;
  p_email : string;
  p_password : string;
  p_role : UserRole;
  p_companyId : option string;
  p_isActive : bool
}.

Record CreateUserDto : Type := mkCreateUserDto {
  c_userId : string;
  c_firstName : string;
  c_lastName : string;
  c_email : string;
  c_password : string;
  c_role : UserRole;
  c_companyId : option string;    (* [None] is [undefined] *)
  c_isActive : bool
}.

(** The properties of a CreateUserDto, each optional; an absent one is
    [None]. *)
Record UpdateUserDto : Type := mkUpdateUserDto {
  u_userId : option string;
  u_firstName : option string;
  u_lastName : option string;
  u_email : option string;
  u_password : option string;
  u_role : option UserRole;
  u_companyId : option string;
  u_isActive : option bool
}.

(** ** The world: collections, entropy, query log *)

Inductive Collection : Type := Users | Providers.

Inductive Query : Type :=
| QFindOneByEmail (c : Collection) (email : string)
| QFindById (c : Collection) (id : string)
| QSave (c : Collection) (id : string)
| QFindByIdAndUpdate (c : Collection) (id : string)
| QFindByIdAndDelete (c : Collection) (id : string).

Record World : Type := mkWorld {
  users : list UserDocument;
  providers : list ProviderDocument;
  entropy : nat -> N;             (* what the random sources will yield *)
  drawn : nat;                    (* how much of it has been used *)
  queries : list Query            (* most recent first *)
}.

(** ** Computations *)

(** A computation over a store of type [S]: a result or an exception, and the
    store afterwards. *)
Definition St (S A : Type) : Type := S -> Result A * S.

Definition ret {S A} (a : A) : St S A := fun w => (Ok a, w).

Definition throw {S A} (e : Exception) : St S A := fun w => (Throw e, w).

Definition bind {S A B} (m : St S A) (k : A -> St S B) : St S B :=
  fun w =>
    match m w with
    | (Ok a, w') => k a w'
    | (Throw e, w') => (Throw e, w')
    end.

Notation "x <- m ;; k" := (bind m (fun x => k))
  (at level 61, m at next level, right associativity).
Notation "m ;;; k" := (bind m (fun _ => k))
  (at level 61, right associativity).

Definition M (A : Type) : Type := St World A.

Definition logQuery (q : Query) : M unit :=
  fun w => (Ok tt, mkWorld (users w) (providers w) (entropy w) (drawn w)
                           (q :: queries w)).

Definition getUsers : M (list UserDocument) := fun w => (Ok (users w), w).

Definition getProviders : M (list ProviderDocument) :=
  fun w => (Ok (providers w), w).

Definition putUsers (us : list UserDocument) : M unit :=
  fun w => (Ok tt, mkWorld us (providers w) (entropy w) (drawn w) (queries w)).

(** One draw from the random source. *)
Definition draw : M N :=
  fun w => (Ok (entropy w (drawn w)),
            mkWorld (users w) (providers w) (entropy w) (S (drawn w))
                    (queries w)).

(** ** ObjectId *)

Definition hexDigit (d : N) : ascii :=
  match d with
  | 0%N => "0" | 1%N => "1" | 2%N => "2" | 3%N => "3" | 4%N => "4"
  | 5%N => "5" | 6%N => "6" | 7%N => "7" | 8%N => "8" | 9%N => "9"
  | 10%N => "a" | 11%N => "b" | 12%N => "c" | 13%N => "d" | 14%N => "e"
  | _ => "f"
  end%char.

(** The [digits] low hexadecimal digits of [n], most significant first. *)
Fixpoint toHex (digits : nat) (n : N) (acc : string) : string :=
  match digits with
  | O => acc
  | S k => toHex k (N.div n 16) (String (hexDigit (N.modulo n 16)) acc)
  end.

Arguments toHex : simpl never.

(** [new Types.ObjectId().toString()]: twelve fresh bytes, printed as 24
    hexadecimal digits. *)
Definition newObjectIdString : M string :=
  n <- draw ;; ret (toHex 24 n "").

(** ** The user collection (Mongoose model) *)

Module userModel.

Definition byEmail (e : string) (u : UserDocument) : bool :=
  String.eqb (email u) e.

Definition byId (id : string) (u : UserDocument) : bool :=
  String.eqb (_id u) id.

(** [findOne({ email })] *)
Definition findOne (e : string) : M (option UserDocument) :=
  logQuery (QFindOneByEmail Users e) ;;;
  us <- getUsers ;;
  ret (find (byEmail e) us).

(** [findById(id)] *)
Definition findById (id : string) : M (option UserDocument) :=
  logQuery (QFindById Users id) ;;;
  us <- getUsers ;;
  ret (find (byId id) us).

(** [new this.userModel(data)] followed by [save()]: the document gets a
    fresh [_id] and is appended. *)
Definition save (data : string -> UserDocument) : M UserDocument :=
  oid <- newObjectIdString ;;
  logQuery (QSave Users oid) ;;;
  us <- getUsers ;;
  putUsers (us ++ [data oid]) ;;;
  ret (data oid).

(** [$set] of the properties the update carries. *)
Definition applySet (d : UpdateUserDto) (u : UserDocument) : UserDocument :=
  let pick {A} (o : option A) (old : A) : A :=
    match o with Some v => v | None => old end in
  mkUser (_id u)
         (pick (u_userId d) (userId u))
         (pick (u_firstName d) (firstName u))
         (pick (u_lastName d) (lastName u))
         (pick (u_email d) (email u))
         (pick (u_password d) (password u))
         (pick (u_role d) (role u))
         (match u_companyId d with
          | Some c => Some c
          | None => companyId u
          end)
         (pick (u_isActive d) (isActive u)).

Fixpoint updateFirst (id : string) (d : UpdateUserDto)
         (us : list UserDocument) : list UserDocument :=
  match us with
  | [] => []
  | u :: rest =>
      if byId id u then applySet d u :: rest
      else u :: updateFirst id d rest
  end.

Fixpoint deleteFirst (id : string) (us : list UserDocument)
  : list UserDocument :=
  match us with
  | [] => []
  | u :: rest => if byId id u then rest else u :: deleteFirst id rest
  end.

(** [findByIdAndUpdate(id, { $set: dto }, { new: true })] *)
Definition findByIdAndUpdate (id : string) (d : UpdateUserDto)
  : M (option UserDocument) :=
  logQuery (QFindByIdAndUpdate Users id) ;;;
  us <- getUsers ;;
  putUsers (updateFirst id d us) ;;;
  ret (option_map (applySet d) (find (byId id) us)).

(** [findByIdAndDelete(id)] *)
Definition findByIdAndDelete (id : string) : M (option UserDocument) :=
  logQuery (QFindByIdAndDelete Users id) ;;;
  us <- getUsers ;;
  putUsers (deleteFirst id us) ;;;
  ret (find (byId id) us).

End userModel.

Module providerModel.

Definition byEmail (e : string) (p : ProviderDocument) : bool :=
  String.eqb (p_email p) e.

(** [findOne({ email })] *)
Definition findOne (e : string) : M (option ProviderDocument) :=
  logQuery (QFindOneByEmail Providers e) ;;;
  ps <- getProviders ;;
  ret (find (byEmail e) ps).

End providerModel.

(** ** Injected libraries *)

(** [bcrypt]: [hash data rounds] draws a salt and returns the digest;
    [compare data encrypted] tests a candidate against a digest. *)
Class Bcrypt : Type := {
  hashWithSalt : string -> nat -> N -> string;
  compareSync : string -> string -> bool
}.

(** [JwtService.sign]: [sign payload] is the token of one call.  The library
    also stamps the time of the call into it, which no statement relies
    on. *)
Class JwtService (Payload : Type) : Type := {
  sign : Payload -> string
}.

Module bcrypt.
Section Api.
Context `{Bcrypt}.

(** [await bcrypt.hash(data, rounds)] *)
Definition hash (data : string) (rounds : nat) : M string :=
  salt <- draw ;; ret (hashWithSalt data rounds salt).

(** [await bcrypt.compare(data, encrypted)] *)
Definition compare (data encrypted : string) : M bool :=
  ret (compareSync data encrypted).
End Api.
End bcrypt.

Definition isSome {A} (o : option A) : bool :=
  match o with Some _ => true | None => false end.

(** ** UsersService (revision without [currentUser]) *)

Module UsersService.
Section Service.
Context `{Bcrypt}.

Definition create (createUserDto : CreateUserDto) : M UserDocument :=
  existingUser <- userModel.findOne (c_email createUserDto) ;;
  if isSome existingUser then
    throw (BadRequestException "El email ya está registrado")
  else if UserRole_eqb (c_role createUserDto) COMPANY
          && negb (truthyStr (c_companyId createUserDto)) then
    throw (BadRequestException
             "Se requiere companyId para usuarios de tipo COMPANY")
  else
    hashedPassword <- bcrypt.hash (c_password createUserDto) 10 ;;
    let userData := fun oid =>
      mkUser oid
             (c_userId createUserDto)
             (c_firstName createUserDto)
             (c_lastName createUserDto)
             (c_email createUserDto)
             hashedPassword
             (c_role createUserDto)
             (orNull (c_companyId createUserDto))
             (c_isActive createUserDto) in
    result <- userModel.save userData ;;
    ret result.

Definition findAll : M (list UserDocument) := getUsers.

Definition findOne (id : string) : M UserDocument :=
  user <- userModel.findById id ;;
  match user with
  | None =>
      throw (NotFoundException
               ("Usuario con ID " ++ id ++ " no encontrado"))
  | Some user => ret user
  end.

Definition findByEmail (email : string) : M UserDocument :=
  user <- userModel.findOne email ;;
  match user with
  | None =>
      throw (NotFoundException
               ("Usuario con email " ++ email ++ " no encontrado"))
  | Some user => ret user
  end.

(** [if (dto.password) dto.password = await bcrypt.hash(dto.password, 10)] *)
Definition hashPasswordIfAny (updateUserDto : UpdateUserDto)
  : M UpdateUserDto :=
  if truthyStr (u_password updateUserDto) then
    match u_password updateUserDto with
    | Some p =>
        h <- bcrypt.hash p 10 ;;
        ret (mkUpdateUserDto (u_userId updateUserDto)
                             (u_firstName updateUserDto)
                             (u_lastName updateUserDto)
                             (u_email updateUserDto)
                             (Some h)
                             (u_role updateUserDto)
                             (u_companyId updateUserDto)
                             (u_isActive updateUserDto))
    | None => ret updateUserDto
    end
  else ret updateUserDto.

Definition update (id : string) (updateUserDto : UpdateUserDto)
  : M UserDocument :=
  user <- userModel.findById id ;;
  match user with
  | None =>
      throw (NotFoundException
               ("Usuario con ID " ++ id ++ " no encontrado"))
  | Some _ =>
      if roleIs (u_role updateUserDto) COMPANY
         && negb (truthyStr (u_companyId updateUserDto)) then
        throw (BadRequestException
                 "Se requiere companyId para usuarios de tipo COMPANY")
      else
        updateUserDto <- hashPasswordIfAny updateUserDto ;;
        updatedUser <- userModel.findByIdAndUpdate id updateUserDto ;;
        match updatedUser with
        | None =>
            throw (TypeError
                     "Cannot read properties of null (reading '_id')")
        | Some updatedUser => ret updatedUser
        end
  end.

Definition remove (id : string) : M unit :=
  result <- userModel.findByIdAndDelete id ;;
  match result with
  | None =>
      throw (NotFoundException
               ("Usuario con ID " ++ id ++ " no encontrado"))
  | Some _ => ret tt
  end.
End Service.
End UsersService.

(** ** UsersService (revision with [currentUser]) *)

(** [a !== b] on two [companyId]s. *)
Definition companyDiffers (a b : option string) : bool :=
  match a, b with
  | None, None => false
  | Some x, Some y => negb (String.eqb x y)
  | _, _ => true
  end.

(** [currentUser?.role === UserRole.X] *)
Definition currentRoleIs (currentUser : option UserDocument) (x : UserRole)
  : bool :=
  roleIs (option_map role currentUser) x.

(** [currentUser?.role === UserRole.COMPANY &&
     user.companyId !== currentUser.companyId] *)
Definition otherCompany (currentUser : option UserDocument)
           (user : UserDocument) : bool :=
  match currentUser with
  | Some cu =>
      UserRole_eqb (role cu) COMPANY
      && companyDiffers (companyId user) (companyId cu)
  | None => false
  end.

(** The filter [{ companyId }]: the document's [companyId] equals the value
    asked for. *)
Definition inCompany (company : option string) (u : UserDocument) : bool :=
  match company, companyId u with
  | Some c, Some c' => String.eqb c' c
  | _, _ => false
  end.

Module ScopedUsersService.
Section Service.
Context `{Bcrypt}.

Definition create (createUserDto : CreateUserDto) : M UserDocument :=
  existingUser <- userModel.findOne (c_email createUserDto) ;;
  if isSome existingUser then
    throw (BadRequestException "El email ya está registrado")
  else if UserRole_eqb (c_role createUserDto) COMPANY
          && negb (truthyStr (c_companyId createUserDto)) then
    throw (BadRequestException
             "Se requiere companyId para usuarios de tipo COMPANY")
  else
    hashedPassword <- bcrypt.hash (c_password createUserDto) 10 ;;
    let userData := fun oid =>
      mkUser oid
             (c_userId createUserDto)
             (c_firstName createUserDto)
             (c_lastName createUserDto)
             (c_email createUserDto)
             hashedPassword
             (c_role createUserDto)
             (orNull (c_companyId createUserDto))
             (c_isActive createUserDto) in
    result <- userModel.save userData ;;
    ret result.

(** [find({ companyId })] when [companyId] is truthy, [find()] otherwise. *)
Definition findAll (company : option string) : M (list UserDocument) :=
  if truthyStr company then
    us <- getUsers ;;
    ret (filter (inCompany company) us)
  else getUsers.

Definition findOne (id : string) (currentUser : option UserDocument)
  : M UserDocument :=
  user <- userModel.findById id ;;
  match user with
  | None =>
      throw (NotFoundException
               ("Usuario con ID " ++ id ++ " no encontrado"))
  | Some user =>
      if otherCompany currentUser user then
        throw (ForbiddenException
                 "You can only view users from your company")
      else ret user
  end.

Definition findByEmail (email : string) : M UserDocument :=
  user <- userModel.findOne email ;;
  match user with
  | None =>
      throw (NotFoundException
               ("Usuario con email " ++ email ++ " no encontrado"))
  | Some user => ret user
  end.

Definition update (id : string) (updateUserDto : UpdateUserDto)
           (currentUser : option UserDocument) : M UserDocument :=
  user <- findOne id currentUser ;;
  if otherCompany currentUser user then
    throw (ForbiddenException
             "You can only update users from your company")
  else if currentRoleIs currentUser COMPANY
          && roleIs (u_role updateUserDto) ADMIN then
    throw (ForbiddenException "You cannot assign the ADMIN role")
  else if roleIs (u_role updateUserDto) COMPANY
          && negb (truthyStr (u_companyId updateUserDto)) then
    throw (BadRequestException
             "Se requiere companyId para usuarios de tipo COMPANY")
  else
    updateUserDto <- UsersService.hashPasswordIfAny updateUserDto ;;
    updatedUser <- userModel.findByIdAndUpdate id updateUserDto ;;
    match updatedUser with
    | None =>
        throw (TypeError
                 "Cannot read properties of null (reading '_id')")
    | Some updatedUser => ret updatedUser
    end.

Definition remove (id : string) (currentUser : option UserDocument)
  : M unit :=
  user <- findOne id currentUser ;;
  if otherCompany currentUser user then
    throw (ForbiddenException
             "You can only delete users from your company")
  else
    result <- userModel.findByIdAndDelete id ;;
    match result with
    | None =>
        throw (NotFoundException
                 ("Usuario con ID " ++ id ++ " no encontrado"))
    | Some _ => ret tt
    end.
End Service.
End ScopedUsersService.

(** ** AuthService *)

Inductive Account : Type :=
| UserAccount (u : UserDocument)
| ProviderAccount (p : ProviderDocument).

Definition acc_id (a : Account) : string :=
  match a with UserAccount u => _id u | ProviderAccount p => p_id p end.
Definition acc_email (a : Account) : string :=
  match a with UserAccount u => email u | ProviderAccount p => p_email p end.
Definition acc_password (a : Account) : string :=
  match a with
  | UserAccount u => password u
  | ProviderAccount p => p_password p
  end.
Definition acc_role (a : Account) : UserRole :=
  match a with UserAccount u => role u | ProviderAccount p => p_role p end.
Definition acc_firstName (a : Account) : string :=
  match a with
  | UserAccount u => firstName u
  | ProviderAccount p => p_firstName p
  end.
Definition acc_lastName (a : Account) : string :=
  match a with
  | UserAccount u => lastName u
  | ProviderAccount p => p_lastName p
  end.
Definition acc_companyId (a : Account) : option string :=
  match a with
  | UserAccount u => companyId u
  | ProviderAccount p => p_companyId p
  end.
Definition acc_isActive (a : Account) : bool :=
  match a with
  | UserAccount u => isActive u
  | ProviderAccount p => p_isActive p
  end.

Record JwtPayload : Type := mkJwtPayload {
  sub : string;
  jp_email : string;
  jp_role : UserRole;
  jp_firstName : string;
  jp_lastName : string;
  jp_companyId : option string
}.

(** [const { password, ...userResponse } = user.toObject()]: every property
    of the document but the password.  A provider document has no
    [userId]. *)
Record UserResponse : Type := mkUserResponse {
  ur_id : string;
  ur_userId : option string;
  ur_email : string;
  ur_role : UserRole;
  ur_firstName : string;
  ur_lastName : string;
  ur_companyId : option string;
  ur_isActive : bool
}.

Definition acc_userId (a : Account) : option string :=
  match a with
  | UserAccount u => Some (userId u)
  | ProviderAccount _ => None
  end.

Definition withoutPassword (a : Account) : UserResponse :=
  mkUserResponse (acc_id a) (acc_userId a) (acc_email a) (acc_role a)
                 (acc_firstName a) (acc_lastName a) (acc_companyId a)
                 (acc_isActive a).

(** The class declares [email], [password], [name], [type] and [role];
    [register] also reads [firstName], [lastName] and [companyId] from the
    object, and writes [companyId].  [role] is declared a string and compared
    with the members of [UserRole]. *)
Record RegisterDto : Type := mkRegisterDto {
  r_email : string;
  r_password : string;
  r_name : string;
  r_type : string;
  r_role : UserRole;
  r_firstName : string;
  r_lastName : string;
  r_companyId : option string     (* [None] is [undefined] *)
}.

Record LoginDto : Type := mkLoginDto {
  l_email : string;
  l_password : string
}.

Record RegisterResponse : Type := mkRegisterResponse {
  access_token : string;
  rr_user : UserResponse
}.

Record LoginData : Type := mkLoginData {
  ld_user : UserResponse;
  token : string
}.

Record LoginResponse : Type := mkLoginResponse {
  success : bool;
  data : LoginData
}.

Module AuthService.
Section Service.
Context `{Bcrypt} `{JwtService JwtPayload}.

Definition generateToken (user : Account) : string :=
  let payload :=
    mkJwtPayload (acc_id user) (acc_email user) (acc_role user)
                 (acc_firstName user) (acc_lastName user)
                 (orNull (acc_companyId user)) in
  sign payload.

Definition register (registerDto : RegisterDto) : M RegisterResponse :=
  existingUser <- userModel.findOne (r_email registerDto) ;;
  if isSome existingUser then
    throw (BadRequestException "El correo electrónico ya está registrado")
  else
    registerDto <-
      (if UserRole_eqb (r_role registerDto) COMPANY then
         oid <- newObjectIdString ;;
         ret (mkRegisterDto (r_email registerDto)
                            (r_password registerDto)
                            (r_name registerDto)
                            (r_type registerDto)
                            (r_role registerDto)
                            (r_firstName registerDto)
                            (r_lastName registerDto)
                            (Some oid))
       else ret registerDto) ;;
    userId <- newObjectIdString ;;
    user <- UsersService.create
              (mkCreateUserDto userId
                               (r_firstName registerDto)
                               (r_lastName registerDto)
                               (r_email registerDto)
                               (r_password registerDto)
                               (r_role registerDto)
                               (r_companyId registerDto)
                               true) ;;
    let token := generateToken (UserAccount user) in
    ret (mkRegisterResponse token (withoutPassword (UserAccount user))).

Definition validateUser (email password : string) : M (option Account) :=
  user <- userModel.findOne email ;;
  match user with
  | Some user =>
      (* [user.password]; the parameter hides the projection *)
      isPasswordValid <-
        bcrypt.compare password (acc_password (UserAccount user)) ;;
      if negb isPasswordValid then ret None
      else ret (Some (UserAccount user))
  | None =>
      provider <- providerModel.findOne email ;;
      match provider with
      | Some provider =>
          isPasswordValid <-
            bcrypt.compare password (p_password provider) ;;
          if negb isPasswordValid then ret None
          else ret (Some (ProviderAccount provider))
      | None => ret None
      end
  end.

Definition login (loginDto : LoginDto) : M LoginResponse :=
  user <- validateUser (l_email loginDto) (l_password loginDto) ;;
  match user with
  | None => throw (UnauthorizedException "Credenciales inválidas")
  | Some user =>
      if negb (acc_isActive user) then
        throw (ForbiddenException "La cuenta está desactivada")
      else
        let token := generateToken user in
        ret (mkLoginResponse true
               (mkLoginData (withoutPassword user) token))
  end.
End Service.
End AuthService.

(** ** Approval handlers of the controllers *)

(** [req.user], the identity the authentication guard attached. *)
Record JwtUser : Type := mkJwtUser {
  ju_id : JsValue;                (* [_id] *)
  ju_sub : JsValue;               (* [sub] *)
  ju_companyId : JsValue          (* [companyId] *)
}.

Record Request : Type := mkRequest {
  req_user : option JwtUser       (* [None] is [undefined] *)
}.

(** Modelled from the spec: the class [ApprovalDto] is not among the sources.
    [userId] is the property the handlers write; the spec has the request
    carry the actor's identity and a reason. *)
Record ApprovalDto : Type := mkApprovalDto {
  a_userId : JsValue;
  a_reason : JsValue
}.

(** [req.user && req.user.prop] *)
Definition userAnd (req : Request) (prop : JwtUser -> JsValue) : JsValue :=
  match req_user req with
  | None => JsUndefined
  | Some u => prop u
  end.

(** The two methods of [ExpenseService] the handlers call; [R] is the promise
    they return. *)
Class ExpenseService (R : Type) : Type := {
  es_approveInvoice : string -> ApprovalDto -> JsValue -> R;
  es_rejectInvoice : string -> ApprovalDto -> JsValue -> R
}.

(** The method of [InvoiceService] the reject handler calls. *)
Class InvoiceService (R : Type) : Type := {
  is_rejectInvoice : string -> JsValue -> R
}.

Module ExpenseController.
Section Controller.
Context {R : Type} `{ExpenseService R}.

(** The handlers are not [async]: they return the service's promise, or
    throw before calling it.  [approvalDto] is mutated in place, so the
    handler's result comes with the object as the handler leaves it. *)
Definition approveInvoice (id : string) (approvalDto : ApprovalDto)
           (req : Request) : ApprovalDto * Result R :=
  let approvalDto :=
    if truthy (userAnd req ju_id) then
      mkApprovalDto (userAnd req ju_id) (a_reason approvalDto)
    else if truthy (userAnd req ju_sub) then
      mkApprovalDto (userAnd req ju_sub) (a_reason approvalDto)
    else approvalDto in
  match req_user req with
  | None =>
      (approvalDto,
       Throw (TypeError
          "Cannot read properties of undefined (reading 'companyId')"))
  | Some user =>
      let companyId := ju_companyId user in
      (approvalDto, Ok (es_approveInvoice id approvalDto companyId))
  end.

Definition rejectInvoice (id : string) (approvalDto : ApprovalDto)
           (req : Request) : ApprovalDto * Result R :=
  let approvalDto :=
    if truthy (userAnd req ju_id) then
      mkApprovalDto (userAnd req ju_id) (a_reason approvalDto)
    else if truthy (userAnd req ju_sub) then
      mkApprovalDto (userAnd req ju_sub) (a_reason approvalDto)
    else approvalDto in
  match req_user req with
  | None =>
      (approvalDto,
       Throw (TypeError
          "Cannot read properties of undefined (reading 'companyId')"))
  | Some user =>
      let companyId := ju_companyId user in
      (approvalDto, Ok (es_rejectInvoice id approvalDto companyId))
  end.
End Controller.
End ExpenseController.

(** ** What the upload handlers of InvoiceController work with *)

(** The response given to [new HttpException(response, status)]: a string, or
    the object [{ message, error }]. *)
Inductive HttpBody : Type :=
| TextBody (text : string)
| UploadErrorBody (message error : string).

(** What a handler or the service behind it can throw: an [HttpException]
    built in place, or one of the exceptions above. *)
Inductive Thrown : Type :=
| HttpException (response : HttpBody) (status : nat)
| Raised (e : Exception).

(** [error instanceof HttpException]: the framework's exception classes extend
    it, a [TypeError] does not. *)
Definition instanceofHttpException (error : Thrown) : bool :=
  match error with
  | HttpException _ _ => true
  | Raised (TypeError _) => false
  | Raised _ => true
  end.

(** [error.message] *)
Definition thrownMessage (error : Thrown) : string :=
  match error with
  | HttpException (TextBody text) _ => text
  | HttpException (UploadErrorBody message _) _ => message
  | Raised (BadRequestException m) => m
  | Raised (NotFoundException m) => m
  | Raised (ForbiddenException m) => m
  | Raised (UnauthorizedException m) => m
  | Raised (TypeError m) => m
  end.

(** The status of the answer: that of the [HttpException], 500 for anything
    else. *)
Definition thrownStatus (error : Thrown) : nat :=
  match error with
  | HttpException _ status => status
  | Raised e => getStatus e
  end.

Inductive Outcome (A : Type) : Type :=
| Done (value : A)
| Failed (error : Thrown).
Arguments Done {A} value.
Arguments Failed {A} error.

(** An [async] method over a store [S] that may fail with a [Thrown]. *)
Definition Act (S A : Type) : Type := S -> Outcome A * S.

(** [Express.Multer.File]; a missing [buffer] is [None], and a buffer, empty
    or not, is truthy. *)
Record MulterFile : Type := mkMulterFile {
  originalname : string;
  mimetype : string;
  size : nat;
  buffer : option string
}.

(** The methods of [InvoiceService] the upload handlers call; [V] is the type
    of their results. *)
Class InvoiceUploads (S V : Type) : Type := {
  validateInvoiceFromImage : string -> string -> Act S V;
  uploadActa : string -> option string -> Act S V;
  uploadFiles : list MulterFile -> option JwtUser -> Act S V
}.

Record UploadResponse (V : Type) : Type := mkUploadResponse {
  up_success : bool;
  up_message : string;
  up_data : V
}.
Arguments mkUploadResponse {V} up_success up_message up_data.
Arguments up_success {V} u.
Arguments up_message {V} u.
Arguments up_data {V} u.

Definition BAD_REQUEST : nat := 400.
Definition INTERNAL_SERVER_ERROR : nat := 500.

Record RejectBody : Type := mkRejectBody {
  rejectionReason : JsValue
}.

Module InvoiceController.
Section Controller.
Context {R : Type} `{InvoiceService R}.

Definition rejectInvoice (id : string) (body : RejectBody) : R :=
  is_rejectInvoice id (rejectionReason body).
End Controller.

Section Uploads.
Context {S V : Type} `{InvoiceUploads S V}.

(** [file?.buffer] *)
Definition bufferOf (file : option MulterFile) : option string :=
  match file with
  | Some f => buffer f
  | None => None
  end.

Definition validateInvoice (file : option MulterFile) : Act S V :=
  fun s =>
    match file, bufferOf file with
    | Some f, Some b =>
        match validateInvoiceFromImage b (mimetype f) s with
        | (Done result, s') => (Done result, s')
        | (Failed error, s') =>
            if instanceofHttpException error then (Failed error, s')
            else
              (Failed
                 (HttpException
                    (TextBody
                       "Error procesando el archivo o validando la factura.")
                    INTERNAL_SERVER_ERROR), s')
        end
    | _, _ =>
        (Failed
           (HttpException
              (TextBody
                 "No se recibió ningún archivo o el archivo está corrupto.")
              BAD_REQUEST), s)
    end.

Definition uploadActaAceptacion (id : string) (file : option MulterFile)
  : Act S V :=
  match file with
  | None =>
      fun s =>
        (Failed (HttpException (TextBody "No se recibió ningún archivo")
                               BAD_REQUEST), s)
  | Some f => uploadActa id (buffer f)
  end.

Definition uploadInvoiceAndActa (files : list MulterFile) (req : Request)
  : Act S (UploadResponse V) :=
  fun s =>
    match uploadFiles files (req_user req) s with
    | (Done result, s') =>
        (Done (mkUploadResponse true "Archivos subidos exitosamente" result),
         s')
    | (Failed error, s') =>
        (Failed
           (HttpException
              (UploadErrorBody "Error al subir archivos"
                               (thrownMessage error))
              INTERNAL_SERVER_ERROR), s')
    end.
End Uploads.
End InvoiceController.

(** ** The expense and invoice services *)

(** Modelled from the spec: the entity classes are not among the sources.
    The spec has a record go from draft to pending to approved or rejected. *)
Inductive RecordStatus : Type :=
| DRAFT | PENDING | APPROVED | REJECTED.

(** Modelled from the spec: the [Expense] entity is not among the sources.
    The spec has the record keep its status, the approver's id, and the
    actor and reason of a rejection. *)
Record Expense : Type := mkExpense {
  e_id : string;
  e_status : RecordStatus;
  e_approvedBy : JsValue;
  e_rejectedBy : JsValue;
  e_rejectionReason : JsValue
}.

(** Modelled from the spec: the [Invoice] entity is not among the sources.
    The handler passes an id and a reason only. *)
Record Invoice : Type := mkInvoice {
  i_id : string;
  i_status : RecordStatus;
  i_rejectionReason : JsValue
}.

Record Ledger : Type := mkLedger {
  expenses : list Expense;
  invoices : list Invoice
}.

Definition L (A : Type) : Type := St Ledger A.

Fixpoint replaceExpense (id : string) (e' : Expense) (es : list Expense)
  : list Expense :=
  match es with
  | [] => []
  | e :: rest =>
      if String.eqb (e_id e) id then e' :: rest
      else e :: replaceExpense id e' rest
  end.

Fixpoint replaceInvoice (id : string) (i' : Invoice) (ivs : list Invoice)
  : list Invoice :=
  match ivs with
  | [] => []
  | i :: rest =>
      if String.eqb (i_id i) id then i' :: rest
      else i :: replaceInvoice id i' rest
  end.

Module SpecExpenseService.

(** Modelled from the spec: [ExpenseService.approveInvoice] is not among the
    sources.  The spec says approval is a status transition on the expense
    record that stamps an approver id. *)
Definition approveInvoice (id : string) (approvalDto : ApprovalDto)
           (companyId : JsValue) : L Expense :=
  fun l =>
    match find (fun e => String.eqb (e_id e) id) (expenses l) with
    | None => (Throw (NotFoundException "Expense not found"), l)
    | Some e =>
        let e' := mkExpense (e_id e) APPROVED (a_userId approvalDto)
                            (e_rejectedBy e) (e_rejectionReason e) in
        (Ok e', mkLedger (replaceExpense id e' (expenses l)) (invoices l))
    end.

(** Modelled from the spec: [ExpenseService.rejectInvoice] is not among the
    sources.  The spec says rejection requires a reason and is a status
    transition on the expense record that records the actor's identity and
    the reason. *)
Definition rejectInvoice (id : string) (approvalDto : ApprovalDto)
           (companyId : JsValue) : L Expense :=
  fun l =>
    if negb (truthy (a_reason approvalDto)) then
      (Throw (BadRequestException "A reason is required to reject"), l)
    else
      match find (fun e => String.eqb (e_id e) id) (expenses l) with
      | None => (Throw (NotFoundException "Expense not found"), l)
      | Some e =>
          let e' := mkExpense (e_id e) REJECTED (e_approvedBy e)
                              (a_userId approvalDto)
                              (a_reason approvalDto) in
          (Ok e', mkLedger (replaceExpense id e' (expenses l)) (invoices l))
      end.

End SpecExpenseService.

Module SpecInvoiceService.

(** Modelled from the spec: [InvoiceService.rejectInvoice] is not among the
    sources.  The spec says rejection requires a reason and is a status
    transition on the invoice record that records the reason. *)
Definition rejectInvoice (id : string) (reason : JsValue) : L Invoice :=
  fun l =>
    if negb (truthy reason) then
      (Throw (BadRequestException "A reason is required to reject"), l)
    else
      match find (fun i => String.eqb (i_id i) id) (invoices l) with
      | None => (Throw (NotFoundException "Invoice not found"), l)
      | Some i =>
          let i' := mkInvoice (i_id i) REJECTED reason in
          (Ok i', mkLedger (expenses l) (replaceInvoice id i' (invoices l)))
      end.

End SpecInvoiceService.

#[export] Instance specExpenseService : ExpenseService (L Expense) := {
  es_approveInvoice := SpecExpenseService.approveInvoice;
  es_rejectInvoice := SpecExpenseService.rejectInvoice
}.

#[export] Instance specInvoiceService : InvoiceService (L Invoice) := {
  is_rejectInvoice := SpecInvoiceService.rejectInvoice
}.

(** What the framework does with a handler's outcome: a synchronous throw is
    the response; a returned promise is run. *)
Definition respond {S A} (outcome : Result (St S A)) : St S A :=
  match outcome with
  | Ok promise => promise
  | Throw e => throw e
  end.

(** ** Configuration *)

(** A JavaScript number as [parseInt] yields it. *)
Inductive Num : Type :=
| NaN
| Finite (n : Z).

Definition truthyNum (x : Num) : bool :=
  match x with
  | NaN => false
  | Finite n => negb (Z.eqb n 0)
  end.

(** [process.env]: the variables the configuration reads; [None] is unset. *)
Record ProcessEnv : Type := mkProcessEnv {
  PORT : option string;
  MONGODB_URI : option string;
  JWT_SECRET : option string;
  JWT_EXPIRES_IN : option string;
  API_URL : option string
}.

Record Configuration : Type := mkConfiguration {
  port : Num;
  database_uri : option string;
  jwt_secret : option string;
  jwt_expiresIn : string;
  api_url : string
}.

(** [value || fallback] on an optional string. *)
Definition orDefault (value : option string) (fallback : string) : string :=
  match value with
  | Some s => if truthyStr value then s else fallback
  | None => fallback
  end.

Section Configuration.
(** The global [parseInt(string, radix)]. *)
Variable parseInt : option string -> nat -> Num.

Definition configuration (env : ProcessEnv) : Configuration :=
  mkConfiguration
    (if truthyNum (parseInt (PORT env) 10) then parseInt (PORT env) 10
     else Finite 3015)
    (MONGODB_URI env)
    (JWT_SECRET env)
    (orDefault (JWT_EXPIRES_IN env) "1d")
    (orDefault (API_URL env) "http://localhost:3015").
End Configuration.

(** * Properties *)

(** ** Vocabulary of the statements *)

(** A property is present when it is truthy; a missing one is falsy. *)
Definition present (v : JsValue) : Prop := truthy v = true.
Definition missing (v : JsValue) : Prop := truthy v = false.

Definition withUserId (approvalDto : ApprovalDto) (v : JsValue)
  : ApprovalDto :=
  mkApprovalDto v (a_reason approvalDto).

(** The two collections of a world. *)
Definition stored (w : World) : list UserDocument * list ProviderDocument :=
  (users w, providers w).

Definition findExpense (id : string) (l : Ledger) : option Expense :=
  find (fun e => String.eqb (e_id e) id) (expenses l).

Definition findInvoice (id : string) (l : Ledger) : option Invoice :=
  find (fun i => String.eqb (i_id i) id) (invoices l).

(** The document [create] builds once both checks have passed. *)
Definition createdUser `{Bcrypt} (createUserDto : CreateUserDto) (w : World)
  : UserDocument :=
  mkUser (toHex 24 (entropy w (S (drawn w))) "")
         (c_userId createUserDto)
         (c_firstName createUserDto)
         (c_lastName createUserDto)
         (c_email createUserDto)
         (hashWithSalt (c_password createUserDto) 10 (entropy w (drawn w)))
         (c_role createUserDto)
         (orNull (c_companyId createUserDto))
         (c_isActive createUserDto).

(** The account an email resolves to: the first user with that email, or,
    when no user has it, the first provider with that email. *)
Inductive accountOf (w : World) (address : string) : Account -> Prop :=
| accountOf_user (u : UserDocument) :
    find (userModel.byEmail address) (users w) = Some u ->
    accountOf w address (UserAccount u)
| accountOf_provider (p : ProviderDocument) :
    find (userModel.byEmail address) (users w) = None ->
    find (providerModel.byEmail address) (providers w) = Some p ->
    accountOf w address (ProviderAccount p).

Definition withProviders (w : World) (ps : list ProviderDocument) : World :=
  mkWorld (users w) ps (entropy w) (drawn w) (queries w).

(** ** Sample data *)

(** A stand-in for bcrypt that computes: the digest is the data behind a
    prefix made of the cost and the salt. *)
Definition toyDigest (data : string) (rounds : nat) (salt : N) : string :=
  ("$2b$" ++ toHex 2 (N.of_nat rounds) "" ++ "$" ++ toHex 4 salt "" ++ data)
    %string.

(** The candidate matches when the digest ends with it after the 11
    characters of prefix. *)
Definition toyCompare (data encrypted : string) : bool :=
  String.eqb (substring 11 (String.length encrypted - 11) encrypted) data.

Definition toyBcrypt : Bcrypt := {|
  hashWithSalt := toyDigest;
  compareSync := toyCompare
|}.

Definition toyJwt : JwtService JwtPayload := {|
  sign := fun payload => ("jwt." ++ sub payload)%string
|}.

Definition ana : UserDocument :=
  mkUser "u1" "p1" "Ana" "Flores" "ana@acme.pe"
         (toyDigest "secreto1" 10 7) COMPANY (Some "acme") true.

Definition beto : UserDocument :=
  mkUser "u2" "p2" "Beto" "Rojas" "beto@otra.pe"
         (toyDigest "secreto2" 10 8) USER (Some "otra") false.

Definition proveedor : ProviderDocument :=
  mkProvider "p1" "Caro" "Luna" "caro@prov.pe"
             (toyDigest "secreto3" 10 9) PROVIDER None true.

(** A provider registered under a user's email. *)
Definition sosia : ProviderDocument :=
  mkProvider "p2" "Ana" "Flores" "ana@acme.pe"
             (toyDigest "secreto4" 10 5) PROVIDER None true.

Definition world0 : World :=
  mkWorld [ana; beto] [proveedor; sosia] (fun k => N.of_nat (100 + k)) 0 [].

Definition altaSinCompania : CreateUserDto :=
  mkCreateUserDto "p9" "Dora" "Paz" "dora@nueva.pe" "clave123" COMPANY None
                  true.

Definition altaNueva : CreateUserDto :=
  mkCreateUserDto "p9" "Dora" "Paz" "dora@nueva.pe" "clave123" USER None true.

Definition altaRepetida : CreateUserDto :=
  mkCreateUserDto "p9" "Ana" "Otra" "ana@acme.pe" "clave123" USER None true.

Definition registroCompania : RegisterDto :=
  mkRegisterDto "dora@nueva.pe" "clave123" "Dora Paz" "normal" COMPANY
                "Dora" "Paz" None.

Definition registroRepetido : RegisterDto :=
  mkRegisterDto "ana@acme.pe" "clave123" "Ana Otra" "normal" USER
                "Ana" "Otra" None.

Definition registroUsuario : RegisterDto :=
  mkRegisterDto "eva@nueva.pe" "clave456" "Eva Rios" "normal" USER
                "Eva" "Rios" (Some "acme").

Definition cambioACompania : UpdateUserDto :=
  mkUpdateUserDto None None None None None (Some COMPANY) None None.

Definition cambioClave : UpdateUserDto :=
  mkUpdateUserDto None None None None (Some "nuevaclave") None None None.

Definition tokenWithId : JwtUser :=
  mkJwtUser (JsString "u1") (JsString "s1") (JsString "acme").

Definition tokenWithSub : JwtUser :=
  mkJwtUser JsUndefined (JsString "s1") (JsString "acme").

Definition tokenBare : JwtUser :=
  mkJwtUser JsUndefined JsUndefined (JsString "acme").

Definition cuerpo : ApprovalDto :=
  mkApprovalDto (JsString "cuerpo") JsUndefined.

Definition sinMotivo : ApprovalDto :=
  mkApprovalDto JsUndefined (JsString "").

Definition conMotivo : ApprovalDto :=
  mkApprovalDto JsUndefined (JsString "duplicado").

Definition expense0 : Expense :=
  mkExpense "e1" PENDING JsUndefined JsUndefined JsUndefined.

Definition invoice0 : Invoice := mkInvoice "f1" PENDING JsUndefined.

Definition ledger0 : Ledger := mkLedger [expense0] [invoice0].

(** A stand-in for [parseInt] on the few strings of the sample
    environments. *)
Definition toyParseInt (text : option string) (radix : nat) : Num :=
  match text with
  | Some "8080" => Finite 8080
  | Some "0" => Finite 0
  | _ => NaN
  end.

Definition envEmpty : ProcessEnv := mkProcessEnv None None None None None.

Definition envSet : ProcessEnv :=
  mkProcessEnv (Some "8080") (Some "mongodb://db/fact") (Some "s3cr3t")
               (Some "") (Some "https://api.acme.pe").

(** A stand-in for the invoice service over a counter of calls: it reads PDFs,
    knows no XML, and breaks on anything else; it wants two files. *)
Definition toyUploads : InvoiceUploads nat string := {|
  validateInvoiceFromImage := fun content mime calls =>
    if String.eqb mime "application/pdf" then (Done content, S calls)
    else if String.eqb mime "text/xml" then
      (Failed (Raised (NotFoundException "Factura no encontrada")), S calls)
    else (Failed (Raised (TypeError "content is not iterable")), S calls);
  uploadActa := fun id content calls => (Done id, S calls);
  uploadFiles := fun files user calls =>
    match files with
    | [_; _] => (Done "subidos", S calls)
    | _ =>
        (Failed (Raised (BadRequestException "Se requieren dos archivos")),
         S calls)
    end
|}.

Definition facturaPdf : MulterFile :=
  mkMulterFile "factura.pdf" "application/pdf" 3 (Some "PDF").

Definition facturaGif : MulterFile :=
  mkMulterFile "factura.gif" "image/gif" 3 (Some "GIF").

Definition facturaXml : MulterFile :=
  mkMulterFile "factura.xml" "text/xml" 3 (Some "XML").

Definition sinBuffer : MulterFile :=
  mkMulterFile "factura.pdf" "application/pdf" 0 None.

Definition claveVacia : UpdateUserDto :=
  mkUpdateUserDto None None None None (Some "") None None None.

Definition ascensoAdmin : UpdateUserDto :=
  mkUpdateUserDto None None None None None (Some ADMIN) None None.

(** Unfolds one layer of monadic plumbing. *)
Ltac run :=
  cbv beta iota zeta delta
    [bind ret throw logQuery getUsers getProviders putUsers draw
     newObjectIdString bcrypt.hash bcrypt.compare
     userModel.findOne userModel.findById userModel.save
     userModel.findByIdAndUpdate userModel.findByIdAndDelete
     providerModel.findOne];
  cbn [fst snd users providers entropy drawn queries].

(** ** Approver identity (ExpenseController) *)

Section ApproverIdentity.
Context {R : Type} `{ExpenseService R}.
Variables (id : string) (approvalDto : ApprovalDto) (req : Request).

Lemma approve_stamps :
  fst (ExpenseController.approveInvoice id approvalDto req) =
  fst (ExpenseController.rejectInvoice id approvalDto req).
Proof.
  unfold ExpenseController.approveInvoice, ExpenseController.rejectInvoice.
  destruct (req_user req); reflexivity.
Qed.

(** Without [req.user] neither handler reaches the service: reading
    [req.user.companyId] throws, and the body is as it came. *)
Lemma handlers_without_user :
  req_user req = None ->
  ExpenseController.approveInvoice id approvalDto req =
    (approvalDto,
     Throw (TypeError
        "Cannot read properties of undefined (reading 'companyId')"))
  /\ ExpenseController.rejectInvoice id approvalDto req =
    (approvalDto,
     Throw (TypeError
        "Cannot read properties of undefined (reading 'companyId')")).
Proof.
  intros Hu.
  unfold ExpenseController.approveInvoice, ExpenseController.rejectInvoice,
    userAnd.
  rewrite Hu. simpl. split; reflexivity.
Qed.

(** C1.  The approver stamped by [approveInvoice] and [rejectInvoice]
    follows a three-way fallback.  For a request whose [req.user] is [user]:
    when [user._id] is present the service receives the body with [userId]
    set to it; otherwise, when [user.sub] is present, with [userId] set to
    [user.sub]; otherwise the body exactly as it came, its own [userId]
    included.  In each case the handler leaves the body object in the state
    it passes on. *)
Theorem approver_three_way_fallback (user : JwtUser) :
  req_user req = Some user ->
  (present (ju_id user) ->
     let dto := withUserId approvalDto (ju_id user) in
     ExpenseController.approveInvoice id approvalDto req =
       (dto, Ok (es_approveInvoice id dto (ju_companyId user)))
     /\ ExpenseController.rejectInvoice id approvalDto req =
       (dto, Ok (es_rejectInvoice id dto (ju_companyId user))))
  /\ (missing (ju_id user) -> present (ju_sub user) ->
     let dto := withUserId approvalDto (ju_sub user) in
     ExpenseController.approveInvoice id approvalDto req =
       (dto, Ok (es_approveInvoice id dto (ju_companyId user)))
     /\ ExpenseController.rejectInvoice id approvalDto req =
       (dto, Ok (es_rejectInvoice id dto (ju_companyId user))))
  /\ (missing (ju_id user) -> missing (ju_sub user) ->
     ExpenseController.approveInvoice id approvalDto req =
       (approvalDto,
        Ok (es_approveInvoice id approvalDto (ju_companyId user)))
     /\ ExpenseController.rejectInvoice id approvalDto req =
       (approvalDto,
        Ok (es_rejectInvoice id approvalDto (ju_companyId user)))).
Proof.
  intros Hu.
  unfold present, missing, withUserId,
    ExpenseController.approveInvoice, ExpenseController.rejectInvoice,
    userAnd.
  rewrite Hu.
  repeat split; intros.
  all: repeat match goal with
              | E : truthy _ = _ |- _ => rewrite E; clear E
              end.
  all: reflexivity.
Qed.
End ApproverIdentity.

(** ** Rejection needs a reason *)

Lemma find_replaceExpense (id : string) (e e' : Expense) (es : list Expense) :
  find (fun x => String.eqb (e_id x) id) es = Some e ->
  e_id e' = e_id e ->
  find (fun x => String.eqb (e_id x) id) (replaceExpense id e' es) = Some e'.
Proof.
  intros Hfind Hid.
  induction es as [|x rest IH]; simpl in *.
  - discriminate.
  - destruct (String.eqb (e_id x) id) eqn:Ex.
    + injection Hfind as ->. simpl. rewrite Hid, Ex. reflexivity.
    + simpl. rewrite Ex. apply IH, Hfind.
Qed.

Lemma find_replaceInvoice (id : string) (i i' : Invoice) (ivs : list Invoice) :
  find (fun x => String.eqb (i_id x) id) ivs = Some i ->
  i_id i' = i_id i ->
  find (fun x => String.eqb (i_id x) id) (replaceInvoice id i' ivs) = Some i'.
Proof.
  intros Hfind Hid.
  induction ivs as [|x rest IH]; simpl in *.
  - discriminate.
  - destruct (String.eqb (i_id x) id) eqn:Ex.
    + injection Hfind as ->. simpl. rewrite Hid, Ex. reflexivity.
    + simpl. rewrite Ex. apply IH, Hfind.
Qed.

(** C2.  Rejecting needs a reason.  A reject request for an expense (from an
    authenticated user) or for an invoice that carries no reason is answered
    with a validation error (400) and the records stay as they were; and when
    a rejection succeeds, the record stored under the id is the returned one,
    it is REJECTED and it carries the reason that was supplied. *)
Theorem reject_requires_reason :
  (forall id approvalDto req user l,
      req_user req = Some user ->
      missing (a_reason approvalDto) ->
      exists message,
        respond (snd (ExpenseController.rejectInvoice id approvalDto req)) l
        = (Throw (BadRequestException message), l))
  /\ (forall id body l,
      missing (rejectionReason body) ->
      exists message,
        InvoiceController.rejectInvoice id body l
        = (Throw (BadRequestException message), l))
  /\ (forall id approvalDto req l e l',
      respond (snd (ExpenseController.rejectInvoice id approvalDto req)) l
      = (Ok e, l') ->
      present (a_reason approvalDto)
      /\ findExpense id l' = Some e
      /\ e_status e = REJECTED
      /\ e_rejectionReason e = a_reason approvalDto)
  /\ (forall id body l i l',
      InvoiceController.rejectInvoice id body l = (Ok i, l') ->
      present (rejectionReason body)
      /\ findInvoice id l' = Some i
      /\ i_status i = REJECTED
      /\ i_rejectionReason i = rejectionReason body).
Proof.
  unfold missing, present.
  split; [|split; [|split]].
  - intros id dto req user l Hu Hr.
    unfold ExpenseController.rejectInvoice. rewrite Hu. simpl.
    unfold SpecExpenseService.rejectInvoice.
    destruct (truthy (userAnd req ju_id));
      [|destruct (truthy (userAnd req ju_sub))];
      simpl; rewrite Hr; simpl; eexists; reflexivity.
  - intros id body l Hr.
    unfold InvoiceController.rejectInvoice. simpl.
    unfold SpecInvoiceService.rejectInvoice. rewrite Hr. simpl.
    eexists; reflexivity.
  - intros id dto req l e l' Hrun.
    unfold ExpenseController.rejectInvoice in Hrun.
    destruct (req_user req) as [user|]; simpl in Hrun;
      [|unfold throw in Hrun; discriminate].
    unfold SpecExpenseService.rejectInvoice in Hrun.
    assert (Hreason :
      a_reason (if truthy (userAnd req ju_id)
                then mkApprovalDto (userAnd req ju_id) (a_reason dto)
                else if truthy (userAnd req ju_sub)
                     then mkApprovalDto (userAnd req ju_sub) (a_reason dto)
                     else dto) = a_reason dto).
    { destruct (truthy (userAnd req ju_id));
        [|destruct (truthy (userAnd req ju_sub))]; reflexivity. }
    rewrite Hreason in Hrun.
    destruct (truthy (a_reason dto)) eqn:Hr; simpl in Hrun; [|discriminate].
    destruct (find (fun e0 => String.eqb (e_id e0) id) (expenses l))
      as [e0|] eqn:Hfind; [|discriminate].
    injection Hrun as <- <-.
    unfold findExpense. simpl.
    split; [reflexivity|]. split; [|split; reflexivity].
    apply (find_replaceExpense id e0); [exact Hfind|reflexivity].
  - intros id body l i l' Hrun.
    unfold InvoiceController.rejectInvoice in Hrun. simpl in Hrun.
    unfold SpecInvoiceService.rejectInvoice in Hrun.
    destruct (truthy (rejectionReason body)); simpl in Hrun; [|discriminate].
    destruct (find (fun i0 => String.eqb (i_id i0) id) (invoices l))
      as [i0|] eqn:Hfind; [|discriminate].
    injection Hrun as <- <-.
    unfold findInvoice. simpl.
    split; [reflexivity|]. split; [|split; reflexivity].
    apply (find_replaceInvoice id i0); [exact Hfind|reflexivity].
Qed.

(** ** Lookups in the user collection *)

Lemma UserRole_eqb_eq (a b : UserRole) : UserRole_eqb a b = true <-> a = b.
Proof. destruct a, b; simpl; split; intro E; congruence. Qed.

Lemma find_byEmail_In (e : string) (us : list UserDocument) (u : UserDocument) :
  In u us -> email u = e ->
  exists u', find (userModel.byEmail e) us = Some u'
             /\ In u' us /\ email u' = e.
Proof.
  intros Hin He.
  destruct (find (userModel.byEmail e) us) as [u'|] eqn:Hfind.
  - exists u'. apply find_some in Hfind as [Hin' Hb].
    unfold userModel.byEmail in Hb. apply String.eqb_eq in Hb. auto.
  - exfalso. apply (find_none _ _ Hfind) in Hin.
    unfold userModel.byEmail in Hin. rewrite He, String.eqb_refl in Hin.
    discriminate.
Qed.

Lemma find_byId_In (id : string) (us : list UserDocument) (u : UserDocument) :
  In u us -> _id u = id ->
  exists u', find (userModel.byId id) us = Some u'
             /\ In u' us /\ _id u' = id.
Proof.
  intros Hin He.
  destruct (find (userModel.byId id) us) as [u'|] eqn:Hfind.
  - exists u'. apply find_some in Hfind as [Hin' Hb].
    unfold userModel.byId in Hb. apply String.eqb_eq in Hb. auto.
  - exfalso. apply (find_none _ _ Hfind) in Hin.
    unfold userModel.byId in Hin. rewrite He, String.eqb_refl in Hin.
    discriminate.
Qed.

Lemma find_byId_absent (id : string) (us : list UserDocument) :
  (forall u, In u us -> _id u <> id) ->
  find (userModel.byId id) us = None.
Proof.
  intros Habs.
  destruct (find (userModel.byId id) us) as [u|] eqn:Hfind; [|reflexivity].
  apply find_some in Hfind as [Hin Hb].
  unfold userModel.byId in Hb. apply String.eqb_eq in Hb.
  exfalso. exact (Habs u Hin Hb).
Qed.

Lemma find_byEmail_absent (e : string) (us : list UserDocument) :
  (forall u, In u us -> email u <> e) ->
  find (userModel.byEmail e) us = None.
Proof.
  intros Habs.
  destruct (find (userModel.byEmail e) us) as [u|] eqn:Hfind; [|reflexivity].
  apply find_some in Hfind as [Hin Hb].
  unfold userModel.byEmail in Hb. apply String.eqb_eq in Hb.
  exfalso. exact (Habs u Hin Hb).
Qed.

Lemma deleteFirst_absent (id : string) (us : list UserDocument) :
  find (userModel.byId id) us = None ->
  userModel.deleteFirst id us = us.
Proof.
  induction us as [|u rest IH]; simpl; [reflexivity|].
  destruct (userModel.byId id u); [discriminate|].
  intros Hrest. rewrite (IH Hrest). reflexivity.
Qed.

Lemma find_updateFirst (id : string) (d : UpdateUserDto)
      (us : list UserDocument) (u : UserDocument) :
  find (userModel.byId id) us = Some u ->
  find (userModel.byId id) (userModel.updateFirst id d us)
  = Some (userModel.applySet d u).
Proof.
  induction us as [|x rest IH]; simpl; [discriminate|].
  destruct (userModel.byId id x) eqn:Ex.
  - intros [= ->]. simpl.
    unfold userModel.byId in *. simpl. rewrite Ex. reflexivity.
  - intros Hrest. simpl. rewrite Ex. apply IH, Hrest.
Qed.

(** ** Conditional requirement of companyId *)

Section CompanyId.
Context `{Bcrypt}.

(** C3.  A COMPANY user needs a companyId.  [create] with role COMPANY and a
    missing (falsy) companyId raises BadRequestException and persists
    nothing.  [update] of a stored user with role COMPANY and a missing
    companyId raises BadRequestException and leaves the collection, and so
    the stored user, as it was. *)
Theorem company_requires_companyId :
  (forall createUserDto w,
      c_role createUserDto = COMPANY ->
      truthyStr (c_companyId createUserDto) = false ->
      exists message,
        fst (UsersService.create createUserDto w)
        = Throw (BadRequestException message)
        /\ stored (snd (UsersService.create createUserDto w)) = stored w)
  /\ (forall id updateUserDto w user,
      In user (users w) -> _id user = id ->
      u_role updateUserDto = Some COMPANY ->
      truthyStr (u_companyId updateUserDto) = false ->
      fst (UsersService.update id updateUserDto w)
      = Throw (BadRequestException
                 "Se requiere companyId para usuarios de tipo COMPANY")
      /\ stored (snd (UsersService.update id updateUserDto w)) = stored w).
Proof.
  split.
  - intros dto w Hrole Hcid.
    unfold UsersService.create. run.
    rewrite Hrole, Hcid.
    destruct (find (userModel.byEmail (c_email dto)) (users w));
      simpl; eexists; split; reflexivity.
  - intros id dto w user Hin Hid Hrole Hcid.
    destruct (find_byId_In id (users w) user Hin Hid) as (u' & Hfind & _).
    unfold UsersService.update. run.
    rewrite Hfind, Hrole, Hcid. simpl. split; reflexivity.
Qed.
End CompanyId.

(** ** What [create] does to the collection *)

Section CreateOutcome.
Context `{Bcrypt}.

Lemma create_taken (createUserDto : CreateUserDto) (w : World)
      (u : UserDocument) :
  find (userModel.byEmail (c_email createUserDto)) (users w) = Some u ->
  fst (UsersService.create createUserDto w)
  = Throw (BadRequestException "El email ya está registrado")
  /\ stored (snd (UsersService.create createUserDto w)) = stored w.
Proof.
  intros Hfind. unfold UsersService.create. run.
  rewrite Hfind. simpl. split; reflexivity.
Qed.

Lemma create_fresh (createUserDto : CreateUserDto) (w : World) :
  find (userModel.byEmail (c_email createUserDto)) (users w) = None ->
  UserRole_eqb (c_role createUserDto) COMPANY
  && negb (truthyStr (c_companyId createUserDto)) = false ->
  fst (UsersService.create createUserDto w)
  = Ok (createdUser createUserDto w)
  /\ users (snd (UsersService.create createUserDto w))
     = users w ++ [createdUser createUserDto w]
  /\ providers (snd (UsersService.create createUserDto w)) = providers w.
Proof.
  intros Hfind Hcheck. unfold UsersService.create. run.
  rewrite Hfind, Hcheck. simpl. repeat split; reflexivity.
Qed.

(** [create] either leaves the collection alone or appends the one document
    it built. *)
Lemma create_users (createUserDto : CreateUserDto) (w : World) :
  users (snd (UsersService.create createUserDto w)) = users w
  \/ (find (userModel.byEmail (c_email createUserDto)) (users w) = None
      /\ users (snd (UsersService.create createUserDto w))
         = users w ++ [createdUser createUserDto w]).
Proof.
  destruct (find (userModel.byEmail (c_email createUserDto)) (users w))
    as [u|] eqn:Hfind.
  - left. apply (create_taken _ _ u) in Hfind as [_ Hst].
    unfold stored in Hst. congruence.
  - destruct (UserRole_eqb (c_role createUserDto) COMPANY
              && negb (truthyStr (c_companyId createUserDto))) eqn:Hcheck.
    + left. unfold UsersService.create. run.
      rewrite Hfind, Hcheck. reflexivity.
    + right. split; [reflexivity|].
      apply create_fresh; assumption.
Qed.

Lemma create_keeps_emails_distinct (createUserDto : CreateUserDto)
      (w : World) :
  NoDup (map email (users w)) ->
  NoDup (map email (users (snd (UsersService.create createUserDto w)))).
Proof.
  intros Hnd.
  destruct (create_users createUserDto w) as [->|[Hfind ->]]; [exact Hnd|].
  rewrite map_app. simpl.
  apply NoDup_rev in Hnd. rewrite <- (rev_involutive (_ ++ _)).
  apply NoDup_rev. rewrite rev_app_distr. simpl.
  constructor; [|exact Hnd].
  rewrite <- in_rev. intros Hin.
  apply in_map_iff in Hin as (u & He & Hin).
  apply (find_none _ _ Hfind) in Hin.
  unfold userModel.byEmail in Hin. rewrite He, String.eqb_refl in Hin.
  discriminate.
Qed.
End CreateOutcome.

(** ** Uniqueness of email *)

Section EmailUnique.
Context `{Bcrypt} `{JwtService JwtPayload}.

Lemma register_taken (registerDto : RegisterDto) (w : World)
      (u : UserDocument) :
  find (userModel.byEmail (r_email registerDto)) (users w) = Some u ->
  fst (AuthService.register registerDto w)
  = Throw (BadRequestException "El correo electrónico ya está registrado")
  /\ stored (snd (AuthService.register registerDto w)) = stored w.
Proof.
  intros Hfind. unfold AuthService.register. run.
  rewrite Hfind. simpl. split; reflexivity.
Qed.

(** C4.  Email is unique among stored users.  When the email of a
    CreateUserDto or of a RegisterDto is the email of a stored user,
    [UsersService.create] and [AuthService.register] raise
    BadRequestException and the stored users are what they were; and
    [create] never makes two stored users share an email. *)
Theorem email_is_unique :
  (forall createUserDto w u,
      In u (users w) -> email u = c_email createUserDto ->
      fst (UsersService.create createUserDto w)
      = Throw (BadRequestException "El email ya está registrado")
      /\ stored (snd (UsersService.create createUserDto w)) = stored w)
  /\ (forall registerDto w u,
      In u (users w) -> email u = r_email registerDto ->
      fst (AuthService.register registerDto w)
      = Throw (BadRequestException
                 "El correo electrónico ya está registrado")
      /\ stored (snd (AuthService.register registerDto w)) = stored w)
  /\ (forall createUserDto w,
      NoDup (map email (users w)) ->
      NoDup (map email
                 (users (snd (UsersService.create createUserDto w))))).
Proof.
  split; [|split].
  - intros dto w u Hin He.
    destruct (find_byEmail_In _ _ _ Hin He) as (u' & Hfind & _).
    exact (create_taken dto w u' Hfind).
  - intros dto w u Hin He.
    destruct (find_byEmail_In _ _ _ Hin He) as (u' & Hfind & _).
    exact (register_taken dto w u' Hfind).
  - intros dto w. apply create_keeps_emails_distinct.
Qed.
End EmailUnique.

(** ** Missing records *)

Section NotFound.
Context `{Bcrypt}.

(** C6.  Missing records yield 404.  For an id that no stored user has,
    [findOne], [update] and [remove] raise NotFoundException, and for an
    email that no stored user has, [findByEmail] raises NotFoundException;
    each time the collections are what they were. *)
Theorem missing_records_not_found :
  (forall id w,
      (forall u, In u (users w) -> _id u <> id) ->
      let notFound :=
        NotFoundException ("Usuario con ID " ++ id ++ " no encontrado") in
      (fst (UsersService.findOne id w) = Throw notFound
       /\ stored (snd (UsersService.findOne id w)) = stored w)
      /\ (forall updateUserDto,
             fst (UsersService.update id updateUserDto w) = Throw notFound
             /\ stored (snd (UsersService.update id updateUserDto w))
                = stored w)
      /\ (fst (UsersService.remove id w) = Throw notFound
          /\ stored (snd (UsersService.remove id w)) = stored w))
  /\ (forall address w,
      (forall u, In u (users w) -> email u <> address) ->
      fst (UsersService.findByEmail address w)
      = Throw (NotFoundException
                 ("Usuario con email " ++ address ++ " no encontrado"))
      /\ stored (snd (UsersService.findByEmail address w)) = stored w).
Proof.
  split.
  - intros id w Habs. apply find_byId_absent in Habs.
    cbv zeta. split; [|split].
    + unfold UsersService.findOne. run. rewrite Habs. split; reflexivity.
    + intros dto. unfold UsersService.update. run. rewrite Habs.
      split; reflexivity.
    + unfold UsersService.remove. run. rewrite Habs.
      unfold stored. cbn [fst snd users providers].
      rewrite (deleteFirst_absent _ _ Habs). split; reflexivity.
  - intros e w Habs. apply find_byEmail_absent in Habs.
    unfold UsersService.findByEmail. run. rewrite Habs. split; reflexivity.
Qed.

(** The revision with [currentUser] answers the same for a missing id,
    whoever asks. *)
Lemma scoped_missing_records_not_found (id : string) (w : World)
      (currentUser : option UserDocument) (updateUserDto : UpdateUserDto) :
  (forall u, In u (users w) -> _id u <> id) ->
  let notFound :=
    NotFoundException ("Usuario con ID " ++ id ++ " no encontrado") in
  fst (ScopedUsersService.findOne id currentUser w) = Throw notFound
  /\ fst (ScopedUsersService.update id updateUserDto currentUser w)
     = Throw notFound
  /\ fst (ScopedUsersService.remove id currentUser w) = Throw notFound
  /\ stored (snd (ScopedUsersService.findOne id currentUser w)) = stored w
  /\ stored (snd (ScopedUsersService.update id updateUserDto currentUser w))
     = stored w
  /\ stored (snd (ScopedUsersService.remove id currentUser w)) = stored w.
Proof.
  intros Habs. apply find_byId_absent in Habs. cbv zeta.
  unfold ScopedUsersService.update, ScopedUsersService.remove,
    ScopedUsersService.findOne.
  run. rewrite Habs. repeat split; reflexivity.
Qed.
End NotFound.

(** ** Company-scoped access *)

Lemma companyDiffers_neq (a b : option string) :
  a <> b -> companyDiffers a b = true.
Proof.
  destruct a as [x|], b as [y|]; simpl; intros Hne; try reflexivity.
  - destruct (String.eqb x y) eqn:E; [|reflexivity].
    apply String.eqb_eq in E. congruence.
  - congruence.
Qed.

Section CompanyScope.
Context `{Bcrypt}.

(** C5.  Company-scoped access control answers 403.  When the current user
    has role COMPANY and the stored user that the id names belongs to
    another company, [findOne], [update] and [remove] raise
    ForbiddenException and the stored users are what they were. *)
Theorem company_scope_forbidden
        (id : string) (w : World) (currentUser target : UserDocument)
        (updateUserDto : UpdateUserDto) :
  role currentUser = COMPANY ->
  find (userModel.byId id) (users w) = Some target ->
  companyId target <> companyId currentUser ->
  let forbidden :=
    ForbiddenException "You can only view users from your company" in
  (fst (ScopedUsersService.findOne id (Some currentUser) w)
   = Throw forbidden
   /\ stored (snd (ScopedUsersService.findOne id (Some currentUser) w))
      = stored w)
  /\ (fst (ScopedUsersService.update id updateUserDto (Some currentUser) w)
      = Throw forbidden
      /\ stored (snd (ScopedUsersService.update id updateUserDto
                                               (Some currentUser) w))
         = stored w)
  /\ (fst (ScopedUsersService.remove id (Some currentUser) w)
      = Throw forbidden
      /\ stored (snd (ScopedUsersService.remove id (Some currentUser) w))
         = stored w).
Proof.
  intros Hrole Hfind Hdiff. cbv zeta.
  apply companyDiffers_neq in Hdiff.
  unfold ScopedUsersService.update, ScopedUsersService.remove,
    ScopedUsersService.findOne.
  run. rewrite Hfind. unfold otherCompany. rewrite Hrole, Hdiff.
  simpl. repeat split; reflexivity.
Qed.
End CompanyScope.

(** ** Login *)

Lemma find_provider_absent (e : string) (ps : list ProviderDocument) :
  (forall p, In p ps -> p_email p <> e) ->
  find (providerModel.byEmail e) ps = None.
Proof.
  intros Habs.
  destruct (find (providerModel.byEmail e) ps) as [p|] eqn:Hfind;
    [|reflexivity].
  apply find_some in Hfind as [Hin Hb].
  unfold providerModel.byEmail in Hb. apply String.eqb_eq in Hb.
  exfalso. exact (Habs p Hin Hb).
Qed.

Section Login.
Context `{Bcrypt} `{JwtService JwtPayload}.

Lemma validateUser_account (address pw : string) (w : World) (a : Account) :
  accountOf w address a ->
  fst (AuthService.validateUser address pw w)
  = Ok (if compareSync pw (acc_password a) then Some a else None)
  /\ stored (snd (AuthService.validateUser address pw w)) = stored w.
Proof.
  intros [u Hu|p Hu Hp]; unfold AuthService.validateUser; run.
  - rewrite Hu. cbn [acc_password].
    destruct (compareSync pw (password u)); split; reflexivity.
  - rewrite Hu. run. rewrite Hp. cbn [acc_password].
    destruct (compareSync pw (p_password p)); split; reflexivity.
Qed.

Lemma validateUser_unknown (address pw : string) (w : World) :
  find (userModel.byEmail address) (users w) = None ->
  find (providerModel.byEmail address) (providers w) = None ->
  fst (AuthService.validateUser address pw w) = Ok None
  /\ stored (snd (AuthService.validateUser address pw w)) = stored w.
Proof.
  intros Hu Hp. unfold AuthService.validateUser. run.
  rewrite Hu. run. rewrite Hp. split; reflexivity.
Qed.

Lemma login_after_validateUser (loginDto : LoginDto) (w : World) :
  AuthService.login loginDto w
  = match AuthService.validateUser (l_email loginDto)
                                   (l_password loginDto) w with
    | (Ok None, w') =>
        (Throw (UnauthorizedException "Credenciales inválidas"), w')
    | (Ok (Some a), w') =>
        if acc_isActive a then
          (Ok (mkLoginResponse true
                 (mkLoginData (withoutPassword a)
                              (AuthService.generateToken a))), w')
        else (Throw (ForbiddenException "La cuenta está desactivada"), w')
    | (Throw e, w') => (Throw e, w')
    end.
Proof.
  unfold AuthService.login, bind.
  destruct (AuthService.validateUser _ _ w) as [[[a|]|e] w'];
    try reflexivity.
  destruct (acc_isActive a); reflexivity.
Qed.

(** C7.  Outcomes of [login].  It raises UnauthorizedException when the
    email matches no stored user or provider, and when the password does not
    match the stored hash of the user the email resolves to or, when no user
    has the email, of the provider it resolves to; it raises
    ForbiddenException when the credentials match but the account's isActive
    is false; otherwise it returns success with a token and the authenticated
    user: every property of the stored document but the password, and the
    token signed over its id, email, role, names and companyId.  The
    collections are never changed. *)
Theorem login_outcomes (loginDto : LoginDto) (w : World) :
  ((forall u, In u (users w) -> email u <> l_email loginDto) ->
   (forall p, In p (providers w) -> p_email p <> l_email loginDto) ->
   fst (AuthService.login loginDto w)
   = Throw (UnauthorizedException "Credenciales inválidas"))
  /\ (forall u,
      find (userModel.byEmail (l_email loginDto)) (users w) = Some u ->
      (compareSync (l_password loginDto) (password u) = false ->
       fst (AuthService.login loginDto w)
       = Throw (UnauthorizedException "Credenciales inválidas"))
      /\ (compareSync (l_password loginDto) (password u) = true ->
          isActive u = false ->
          fst (AuthService.login loginDto w)
          = Throw (ForbiddenException "La cuenta está desactivada"))
      /\ (compareSync (l_password loginDto) (password u) = true ->
          isActive u = true ->
          fst (AuthService.login loginDto w)
          = Ok (mkLoginResponse true
                  (mkLoginData
                     (mkUserResponse (_id u) (Some (userId u)) (email u)
                                     (role u) (firstName u) (lastName u)
                                     (companyId u) (isActive u))
                     (sign (mkJwtPayload
                              (_id u) (email u) (role u) (firstName u)
                              (lastName u)
                              (if truthyStr (companyId u) then companyId u
                               else None)))))))
  /\ (forall p,
      find (userModel.byEmail (l_email loginDto)) (users w) = None ->
      find (providerModel.byEmail (l_email loginDto)) (providers w)
      = Some p ->
      (compareSync (l_password loginDto) (p_password p) = false ->
       fst (AuthService.login loginDto w)
       = Throw (UnauthorizedException "Credenciales inválidas"))
      /\ (compareSync (l_password loginDto) (p_password p) = true ->
          p_isActive p = false ->
          fst (AuthService.login loginDto w)
          = Throw (ForbiddenException "La cuenta está desactivada"))
      /\ (compareSync (l_password loginDto) (p_password p) = true ->
          p_isActive p = true ->
          fst (AuthService.login loginDto w)
          = Ok (mkLoginResponse true
                  (mkLoginData
                     (mkUserResponse (p_id p) None (p_email p) (p_role p)
                                     (p_firstName p) (p_lastName p)
                                     (p_companyId p) (p_isActive p))
                     (sign (mkJwtPayload
                              (p_id p) (p_email p) (p_role p)
                              (p_firstName p) (p_lastName p)
                              (if truthyStr (p_companyId p)
                               then p_companyId p else None)))))))
  /\ stored (snd (AuthService.login loginDto w)) = stored w.
Proof.
  rewrite login_after_validateUser.
  split; [|split; [|split]].
  - intros Hu Hp.
    apply find_byEmail_absent in Hu. apply find_provider_absent in Hp.
    destruct (validateUser_unknown _ (l_password loginDto) _ Hu Hp)
      as [Hr _].
    destruct (AuthService.validateUser _ _ w) as [r w'].
    simpl in Hr. subst r. reflexivity.
  - intros u Hu.
    destruct (validateUser_account _ (l_password loginDto) _ _
                (accountOf_user w _ u Hu)) as [Hr _].
    destruct (AuthService.validateUser _ _ w) as [r w'].
    simpl in Hr. subst r. cbn [acc_password].
    split; [|split]; intros Hc; rewrite Hc; [reflexivity| |];
      intros Hact;
      unfold withoutPassword, AuthService.generateToken, orNull;
      cbn [acc_id acc_userId acc_email acc_role acc_firstName acc_lastName
           acc_companyId acc_isActive negb];
      rewrite Hact; reflexivity.
  - intros p Hu Hp.
    destruct (validateUser_account _ (l_password loginDto) _ _
                (accountOf_provider w _ p Hu Hp)) as [Hr _].
    destruct (AuthService.validateUser _ _ w) as [r w'].
    simpl in Hr. subst r. cbn [acc_password].
    split; [|split]; intros Hc; rewrite Hc; [reflexivity| |];
      intros Hact;
      unfold withoutPassword, AuthService.generateToken, orNull;
      cbn [acc_id acc_userId acc_email acc_role acc_firstName acc_lastName
           acc_companyId acc_isActive negb];
      rewrite Hact; reflexivity.
  - assert (Hst : stored (snd (AuthService.validateUser
               (l_email loginDto) (l_password loginDto) w)) = stored w).
    { destruct (find (userModel.byEmail (l_email loginDto)) (users w))
        as [u|] eqn:Hu.
      - apply (validateUser_account _ _ _ (UserAccount u)).
        constructor; exact Hu.
      - destruct (find (providerModel.byEmail (l_email loginDto))
                       (providers w)) as [p|] eqn:Hp.
        + apply (validateUser_account _ _ _ (ProviderAccount p)).
          constructor; assumption.
        + apply validateUser_unknown; assumption. }
    destruct (AuthService.validateUser _ _ w) as [[[a|]|e] w'];
      try exact Hst.
    destruct (acc_isActive a); exact Hst.
Qed.

(** C10.  Users take precedence over providers in [validateUser].  When
    some stored user has the email, the outcome is decided by the user
    record the email resolves to: that user when the password matches its
    hash, null when it does not.  The only query sent is the one to the
    user collection, the outcome is the same whatever the provider
    collection holds, and it is never a provider. *)
Theorem users_take_precedence
        (address pw : string) (w : World) (u0 : UserDocument) :
  In u0 (users w) -> email u0 = address ->
  exists u,
    In u (users w) /\ email u = address
    /\ (compareSync pw (password u) = true ->
        fst (AuthService.validateUser address pw w)
        = Ok (Some (UserAccount u)))
    /\ (compareSync pw (password u) = false ->
        fst (AuthService.validateUser address pw w) = Ok None)
    /\ queries (snd (AuthService.validateUser address pw w))
       = QFindOneByEmail Users address :: queries w
    /\ (forall ps,
           fst (AuthService.validateUser address pw (withProviders w ps))
           = fst (AuthService.validateUser address pw w))
    /\ (forall p,
           fst (AuthService.validateUser address pw w)
           <> Ok (Some (ProviderAccount p))).
Proof.
  intros Hin He.
  destruct (find_byEmail_In _ _ _ Hin He) as (u & Hfind & Hin' & He').
  exists u. split; [exact Hin'|]. split; [exact He'|].
  unfold AuthService.validateUser, withProviders. run.
  rewrite Hfind. cbn [acc_password].
  destruct (compareSync pw (password u)); simpl;
    repeat split; try reflexivity; try discriminate.
Qed.
End Login.

(** ** Stored passwords *)

Section HashedPasswords.
Context `{Bcrypt}.

Lemma hashPasswordIfAny_present (updateUserDto : UpdateUserDto) (p : string)
      (w : World) :
  u_password updateUserDto = Some p ->
  truthyStr (Some p) = true ->
  exists w',
    UsersService.hashPasswordIfAny updateUserDto w
    = (Ok (mkUpdateUserDto (u_userId updateUserDto)
                           (u_firstName updateUserDto)
                           (u_lastName updateUserDto)
                           (u_email updateUserDto)
                           (Some (hashWithSalt p 10 (entropy w (drawn w))))
                           (u_role updateUserDto)
                           (u_companyId updateUserDto)
                           (u_isActive updateUserDto)), w')
    /\ users w' = users w.
Proof.
  intros Hp Ht. unfold UsersService.hashPasswordIfAny.
  rewrite Hp, Ht. run. eexists. split; reflexivity.
Qed.

(** C8, as amended.  Whenever [create] persists a user (the email is free
    and a COMPANY user has its companyId), the record it appends stores the
    bcrypt digest of the submitted password, and [create] adds no other
    record.  Whenever [update] of a stored user carries a password that is
    not the empty string, the stored record's password becomes a fresh bcrypt
    digest of it. *)
Theorem passwords_are_hashed :
  (forall createUserDto w,
      (forall u, In u (users w) -> email u <> c_email createUserDto) ->
      (c_role createUserDto = COMPANY ->
       truthyStr (c_companyId createUserDto) = true) ->
      exists doc,
        fst (UsersService.create createUserDto w) = Ok doc
        /\ users (snd (UsersService.create createUserDto w))
           = users w ++ [doc]
        /\ password doc
           = hashWithSalt (c_password createUserDto) 10
                          (entropy w (drawn w)))
  /\ (forall createUserDto w doc,
      In doc (users (snd (UsersService.create createUserDto w))) ->
      In doc (users w)
      \/ password doc
         = hashWithSalt (c_password createUserDto) 10
                        (entropy w (drawn w)))
  /\ (forall id updateUserDto w user p,
      find (userModel.byId id) (users w) = Some user ->
      (u_role updateUserDto = Some COMPANY ->
       truthyStr (u_companyId updateUserDto) = true) ->
      u_password updateUserDto = Some p ->
      truthyStr (Some p) = true ->
      exists doc,
        fst (UsersService.update id updateUserDto w) = Ok doc
        /\ find (userModel.byId id)
                (users (snd (UsersService.update id updateUserDto w)))
           = Some doc
        /\ password doc = hashWithSalt p 10 (entropy w (drawn w))).
Proof.
  split; [|split].
  - intros dto w Hfree Hcid.
    apply find_byEmail_absent in Hfree.
    assert (Hcheck : UserRole_eqb (c_role dto) COMPANY
                     && negb (truthyStr (c_companyId dto)) = false).
    { destruct (UserRole_eqb (c_role dto) COMPANY) eqn:Er; [|reflexivity].
      apply UserRole_eqb_eq in Er. rewrite (Hcid Er). reflexivity. }
    destruct (create_fresh dto w Hfree Hcheck) as (Hr & Hus & _).
    exists (createdUser dto w). repeat split; assumption.
  - intros dto w doc Hin.
    destruct (create_users dto w) as [E|[_ E]]; rewrite E in Hin.
    + left; exact Hin.
    + apply in_app_or in Hin as [Hin|[<-|[]]]; [left; exact Hin|].
      right; reflexivity.
  - intros id dto w user p Hfind Hcid Hp Ht.
    assert (Hcheck : roleIs (u_role dto) COMPANY
                     && negb (truthyStr (u_companyId dto)) = false).
    { destruct (roleIs (u_role dto) COMPANY) eqn:Er; [|reflexivity].
      destruct (u_role dto) as [r|]; [|discriminate].
      simpl in Er. apply UserRole_eqb_eq in Er. subst r.
      rewrite (Hcid eq_refl). reflexivity. }
    unfold UsersService.update, UsersService.hashPasswordIfAny.
    rewrite Hp, Ht. run. rewrite Hfind, Hcheck. run.
    rewrite Hfind. cbn [option_map].
    eexists. split; [reflexivity|]. cbn [fst snd users].
    split; [|reflexivity].
    apply find_updateFirst, Hfind.
Qed.
End HashedPasswords.

(** ** Registration of a COMPANY user *)

Lemma toHex_length (digits : nat) (n : N) (acc : string) :
  String.length (toHex digits n acc) = digits + String.length acc.
Proof.
  revert n acc.
  induction digits as [|k IH]; intros n acc; [reflexivity|].
  change (toHex (S k) n acc)
    with (toHex k (N.div n 16) (String (hexDigit (N.modulo n 16)) acc)).
  rewrite IH. simpl. lia.
Qed.

Lemma objectId_truthy (n : N) : truthyStr (Some (toHex 24 n "")) = true.
Proof.
  unfold truthyStr, ofOptString, truthy.
  destruct (String.eqb (toHex 24 n "") "") eqn:E; [|reflexivity].
  apply String.eqb_eq in E.
  pose proof (toHex_length 24 n "") as Hlen.
  rewrite E in Hlen. simpl in Hlen. discriminate.
Qed.

Section RegisterCompany.
Context `{Bcrypt} `{JwtService JwtPayload}.

(** C9.  [register] gives a COMPANY user a companyId before it calls
    [create].  When the email is free, [register] of a RegisterDto with role
    COMPANY is [create] on a CreateUserDto whose companyId is a freshly
    generated ObjectId string, which is truthy; so [register] never ends in
    the BadRequestException with which [create] asks for a companyId, and
    the user it stores carries that companyId. *)
Theorem register_company_has_companyId
        (registerDto : RegisterDto) (w : World) :
  r_role registerDto = COMPANY ->
  let oid := toHex 24 (entropy w (drawn w)) "" in
  let createUserDto :=
    mkCreateUserDto (toHex 24 (entropy w (S (drawn w))) "")
                    (r_firstName registerDto) (r_lastName registerDto)
                    (r_email registerDto) (r_password registerDto)
                    COMPANY (Some oid) true in
  truthyStr (c_companyId createUserDto) = true
  /\ fst (AuthService.register registerDto w)
     <> Throw (BadRequestException
                 "Se requiere companyId para usuarios de tipo COMPANY")
  /\ ((forall u, In u (users w) -> email u <> r_email registerDto) ->
      (exists w1,
          stored w1 = stored w
          /\ AuthService.register registerDto w
             = (user <- UsersService.create createUserDto ;;
                ret (mkRegisterResponse
                       (AuthService.generateToken (UserAccount user))
                       (withoutPassword (UserAccount user)))) w1)
      /\ exists user,
          fst (AuthService.register registerDto w)
          = Ok (mkRegisterResponse
                  (AuthService.generateToken (UserAccount user))
                  (withoutPassword (UserAccount user)))
          /\ users (snd (AuthService.register registerDto w))
             = users w ++ [user]
          /\ companyId user = Some oid).
Proof.
  intros Hrole. cbv zeta.
  split; [apply objectId_truthy|].
  destruct (find (userModel.byEmail (r_email registerDto)) (users w))
    as [u|] eqn:Hfind.
  - split.
    + apply (register_taken _ _ u) in Hfind as [-> _]. discriminate.
    + intros Hfree. apply find_byEmail_absent in Hfree. congruence.
  - assert (Hrun : AuthService.register registerDto w
             = (user <- UsersService.create
                  (mkCreateUserDto (toHex 24 (entropy w (S (drawn w))) "")
                     (r_firstName registerDto) (r_lastName registerDto)
                     (r_email registerDto) (r_password registerDto)
                     COMPANY (Some (toHex 24 (entropy w (drawn w)) ""))
                     true) ;;
                ret (mkRegisterResponse
                       (AuthService.generateToken (UserAccount user))
                       (withoutPassword (UserAccount user))))
               (mkWorld (users w) (providers w) (entropy w)
                        (S (S (drawn w)))
                        (QFindOneByEmail Users (r_email registerDto)
                           :: queries w))).
    { unfold AuthService.register. run.
      rewrite Hfind, Hrole. reflexivity. }
    set (w1 := mkWorld (users w) (providers w) (entropy w)
                       (S (S (drawn w)))
                       (QFindOneByEmail Users (r_email registerDto)
                          :: queries w)) in *.
    set (dto := mkCreateUserDto _ _ _ _ _ _ _ _) in *.
    assert (Hcheck : UserRole_eqb (c_role dto) COMPANY
                     && negb (truthyStr (c_companyId dto)) = false).
    { subst dto. cbn [c_role c_companyId].
      rewrite objectId_truthy. reflexivity. }
    destruct (create_fresh dto w1 Hfind Hcheck) as (Hr & Hus & _).
    assert (Hshape : UsersService.create dto w1
              = (Ok (createdUser dto w1),
                 snd (UsersService.create dto w1))).
    { rewrite <- Hr. destruct (UsersService.create dto w1); reflexivity. }
    assert (Hbind :
      (user <- UsersService.create dto ;;
       ret (mkRegisterResponse
              (AuthService.generateToken (UserAccount user))
              (withoutPassword (UserAccount user)))) w1
      = (Ok (mkRegisterResponse
               (AuthService.generateToken
                  (UserAccount (createdUser dto w1)))
               (withoutPassword (UserAccount (createdUser dto w1)))),
         snd (UsersService.create dto w1))).
    { unfold bind. rewrite Hshape. reflexivity. }
    split; [rewrite Hrun, Hbind; discriminate|]. intros _. split.
    + exists w1. split; [reflexivity|exact Hrun].
    + exists (createdUser dto w1). rewrite Hrun, Hbind. cbn [fst snd].
      split; [reflexivity|]. split; [exact Hus|].
      subst dto. unfold createdUser, orNull. cbn [c_companyId companyId].
      rewrite objectId_truthy. reflexivity.
Qed.
End RegisterCompany.

(** ** Status codes *)

(** The exception classes of the statements above are the 400, 401, 403 and
    404 answers. *)
Lemma exception_status (message : string) :
  getStatus (BadRequestException message) = 400
  /\ getStatus (UnauthorizedException message) = 401
  /\ getStatus (ForbiddenException message) = 403
  /\ getStatus (NotFoundException message) = 404.
Proof. repeat split; reflexivity. Qed.

(** ** The two revisions of UsersService *)

Section Revisions.
Context `{Bcrypt}.

(** A missing (falsy) password leaves the update as it came: nothing is
    hashed and no salt is drawn. *)
Lemma hashPasswordIfAny_missing (updateUserDto : UpdateUserDto) (w : World) :
  truthyStr (u_password updateUserDto) = false ->
  UsersService.hashPasswordIfAny updateUserDto w = (Ok updateUserDto, w).
Proof.
  intros Ht. unfold UsersService.hashPasswordIfAny. rewrite Ht. reflexivity.
Qed.

Lemma scoped_create_same (createUserDto : CreateUserDto) :
  ScopedUsersService.create createUserDto
  = UsersService.create createUserDto.
Proof. reflexivity. Qed.

(** Without a [currentUser] the revision that takes one looks up and updates
    exactly as the other does. *)
Lemma scoped_findOne_anonymous (id : string) (w : World) :
  ScopedUsersService.findOne id None w = UsersService.findOne id w.
Proof.
  unfold ScopedUsersService.findOne, UsersService.findOne. run.
  destruct (find (userModel.byId id) (users w)); reflexivity.
Qed.

Lemma scoped_update_anonymous (id : string) (updateUserDto : UpdateUserDto)
      (w : World) :
  ScopedUsersService.update id updateUserDto None w
  = UsersService.update id updateUserDto w.
Proof.
  unfold ScopedUsersService.update, UsersService.update,
    ScopedUsersService.findOne.
  run.
  destruct (find (userModel.byId id) (users w)); reflexivity.
Qed.

(** In the revision with [currentUser], the companyId requirement is reached
    once the company check has let the caller through. *)
Lemma scoped_company_requires_companyId
      (id : string) (updateUserDto : UpdateUserDto)
      (currentUser : option UserDocument) (w : World) (user : UserDocument) :
  find (userModel.byId id) (users w) = Some user ->
  otherCompany currentUser user = false ->
  u_role updateUserDto = Some COMPANY ->
  truthyStr (u_companyId updateUserDto) = false ->
  fst (ScopedUsersService.update id updateUserDto currentUser w)
  = Throw (BadRequestException
             "Se requiere companyId para usuarios de tipo COMPANY")
  /\ stored (snd (ScopedUsersService.update id updateUserDto currentUser w))
     = stored w.
Proof.
  intros Hfind Hother Hrole Hcid.
  unfold ScopedUsersService.update, ScopedUsersService.findOne. run.
  rewrite Hfind, Hother. run. rewrite Hother, Hrole, Hcid. simpl.
  rewrite andb_false_r. split; reflexivity.
Qed.
End Revisions.

(** * Further properties of the services *)

(** ** List facts behind the collection operations *)

Lemma find_app_none {A} (f : A -> bool) (l l' : list A) :
  find f l = None -> find f (l ++ l') = find f l'.
Proof.
  induction l as [|x rest IH]; simpl; [reflexivity|].
  destruct (f x); [discriminate|exact IH].
Qed.

Lemma byId_applySet (id : string) (d : UpdateUserDto) (u : UserDocument) :
  userModel.byId id (userModel.applySet d u) = userModel.byId id u.
Proof. reflexivity. Qed.

Lemma updateFirst_length (id : string) (d : UpdateUserDto)
      (us : list UserDocument) :
  length (userModel.updateFirst id d us) = length us.
Proof.
  induction us as [|u rest IH]; simpl; [reflexivity|].
  destruct (userModel.byId id u); simpl; [reflexivity|].
  rewrite IH. reflexivity.
Qed.

Lemma byId_exclusive (id id' : string) (u : UserDocument) :
  id' <> id -> userModel.byId id u = true -> userModel.byId id' u = false.
Proof.
  unfold userModel.byId. intros Hne Hid.
  apply String.eqb_eq in Hid. apply String.eqb_neq. congruence.
Qed.

Lemma updateFirst_other (id id' : string) (d : UpdateUserDto)
      (us : list UserDocument) :
  id' <> id ->
  find (userModel.byId id') (userModel.updateFirst id d us)
  = find (userModel.byId id') us.
Proof.
  intros Hne. induction us as [|u rest IH]; simpl; [reflexivity|].
  destruct (userModel.byId id u) eqn:Eid; simpl.
  - rewrite byId_applySet, (byId_exclusive id id' u Hne Eid). reflexivity.
  - destruct (userModel.byId id' u); [reflexivity|exact IH].
Qed.

Lemma deleteFirst_length (id : string) (us : list UserDocument)
      (u : UserDocument) :
  find (userModel.byId id) us = Some u ->
  S (length (userModel.deleteFirst id us)) = length us.
Proof.
  induction us as [|x rest IH]; simpl; [discriminate|].
  destruct (userModel.byId id x); [reflexivity|].
  intros Hrest. simpl. rewrite (IH Hrest). reflexivity.
Qed.

Lemma deleteFirst_other (id id' : string) (us : list UserDocument) :
  id' <> id ->
  find (userModel.byId id') (userModel.deleteFirst id us)
  = find (userModel.byId id') us.
Proof.
  intros Hne. induction us as [|u rest IH]; simpl; [reflexivity|].
  destruct (userModel.byId id u) eqn:Eid; simpl.
  - rewrite (byId_exclusive id id' u Hne Eid). reflexivity.
  - destruct (userModel.byId id' u); [reflexivity|exact IH].
Qed.

Lemma deleteFirst_gone (id : string) (us : list UserDocument) :
  NoDup (map _id us) ->
  find (userModel.byId id) (userModel.deleteFirst id us) = None.
Proof.
  induction us as [|u rest IH]; simpl; [reflexivity|].
  intros Hnd. inversion Hnd as [|x xs Hnotin Hrest]; subst.
  destruct (userModel.byId id u) eqn:Eid; simpl.
  - apply find_byId_absent. intros v Hin Hv.
    unfold userModel.byId in Eid. apply String.eqb_eq in Eid.
    apply Hnotin. rewrite Eid, <- Hv. apply in_map, Hin.
  - rewrite Eid. apply IH, Hrest.
Qed.

Lemma applySet_nothing (u : UserDocument) :
  userModel.applySet
    (mkUpdateUserDto None None None None None None None None) u = u.
Proof. destruct u; reflexivity. Qed.

Lemma updateFirst_nothing (id : string) (us : list UserDocument) :
  userModel.updateFirst
    id (mkUpdateUserDto None None None None None None None None) us = us.
Proof.
  induction us as [|u rest IH]; simpl; [reflexivity|].
  destruct (userModel.byId id u).
  - rewrite applySet_nothing. reflexivity.
  - rewrite IH. reflexivity.
Qed.

(** ** UsersService: create, update and remove on stored users *)

Section StoredUsers.
Context `{Bcrypt}.


(** What [update] does once the lookup and the companyId check have
    passed: it applies the DTO it was given, with at most the password
    replaced. *)
Lemma update_stored (id : string) (updateUserDto : UpdateUserDto)
      (w : World) (user : UserDocument) :
  find (userModel.byId id) (users w) = Some user ->
  (u_role updateUserDto = Some COMPANY ->
   truthyStr (u_companyId updateUserDto) = true) ->
  exists dto',
    fst (UsersService.update id updateUserDto w)
    = Ok (userModel.applySet dto' user)
    /\ users (snd (UsersService.update id updateUserDto w))
       = userModel.updateFirst id dto' (users w)
    /\ providers (snd (UsersService.update id updateUserDto w))
       = providers w
    /\ (truthyStr (u_password updateUserDto) = false ->
        dto' = updateUserDto)
    /\ dto' = mkUpdateUserDto (u_userId updateUserDto)
                              (u_firstName updateUserDto)
                              (u_lastName updateUserDto)
                              (u_email updateUserDto)
                              (u_password dto')
                              (u_role updateUserDto)
                              (u_companyId updateUserDto)
                              (u_isActive updateUserDto)
    /\ (u_password updateUserDto = None -> u_password dto' = None).
Proof.
  intros Hfind Hcid.
  assert (Hcheck : roleIs (u_role updateUserDto) COMPANY
                   && negb (truthyStr (u_companyId updateUserDto)) = false).
  { destruct (roleIs (u_role updateUserDto) COMPANY) eqn:Er; [|reflexivity].
    destruct (u_role updateUserDto) as [r|]; [|discriminate].
    simpl in Er. apply UserRole_eqb_eq in Er. subst r.
    rewrite (Hcid eq_refl). reflexivity. }
  unfold UsersService.update, UsersService.hashPasswordIfAny. run.
  rewrite Hfind, Hcheck.
  destruct (truthyStr (u_password updateUserDto)) eqn:Ht.
  - destruct (u_password updateUserDto) as [p|] eqn:Hp; [|discriminate].
    run. rewrite Hfind. cbn [option_map].
    eexists. split; [reflexivity|]. split; [reflexivity|].
    split; [reflexivity|]. split; [discriminate|].
    split; [reflexivity|discriminate].
  - run. rewrite Hfind. cbn [option_map].
    exists updateUserDto. split; [reflexivity|]. split; [reflexivity|].
    split; [reflexivity|]. split; [reflexivity|].
    split; [destruct updateUserDto; reflexivity|].
    intros Hnone; exact Hnone.
Qed.

(** X2.  [update] of a stored user touches that one document only, and in it
    only what the request carries.  It answers with the document the id
    resolves to afterwards; every property the DTO does not carry keeps its
    stored value; the collection keeps its size, the users under every other
    id are as they were, and the providers are as they were. *)
Theorem update_touches_one_document
        (id : string) (updateUserDto : UpdateUserDto) (w : World)
        (user : UserDocument) :
  find (userModel.byId id) (users w) = Some user ->
  (u_role updateUserDto = Some COMPANY ->
   truthyStr (u_companyId updateUserDto) = true) ->
  exists doc,
    fst (UsersService.update id updateUserDto w) = Ok doc
    /\ find (userModel.byId id)
            (users (snd (UsersService.update id updateUserDto w)))
       = Some doc
    /\ length (users (snd (UsersService.update id updateUserDto w)))
       = length (users w)
    /\ (forall id',
           id' <> id ->
           find (userModel.byId id')
                (users (snd (UsersService.update id updateUserDto w)))
           = find (userModel.byId id') (users w))
    /\ providers (snd (UsersService.update id updateUserDto w))
       = providers w
    /\ (u_userId updateUserDto = None -> userId doc = userId user)
    /\ (u_firstName updateUserDto = None -> firstName doc = firstName user)
    /\ (u_lastName updateUserDto = None -> lastName doc = lastName user)
    /\ (u_email updateUserDto = None -> email doc = email user)
    /\ (u_password updateUserDto = None -> password doc = password user)
    /\ (u_role updateUserDto = None -> role doc = role user)
    /\ (u_companyId updateUserDto = None -> companyId doc = companyId user)
    /\ (u_isActive updateUserDto = None -> isActive doc = isActive user).
Proof.
  intros Hfind Hcid.
  destruct (update_stored id updateUserDto w user Hfind Hcid)
    as (dto' & Hr & Hus & Hps & _ & Hshape & Hpw).
  exists (userModel.applySet dto' user).
  split; [exact Hr|].
  rewrite Hus. split; [apply find_updateFirst, Hfind|].
  split; [apply updateFirst_length|].
  split; [intros id' Hne; apply updateFirst_other, Hne|].
  split; [exact Hps|].
  rewrite Hshape. unfold userModel.applySet.
  cbn [userId firstName lastName email password role companyId isActive
       u_userId u_firstName u_lastName u_email u_password u_role
       u_companyId u_isActive].
  repeat split; intros Hnone; try rewrite (Hpw Hnone); try rewrite Hnone;
    reflexivity.
Qed.

(** X3.  An update that carries nothing changes nothing: for a stored user
    it answers with the stored document and leaves both collections as they
    were. *)
Theorem update_with_empty_dto (id : string) (w : World) (user : UserDocument) :
  find (userModel.byId id) (users w) = Some user ->
  let nothing := mkUpdateUserDto None None None None None None None None in
  fst (UsersService.update id nothing w) = Ok user
  /\ stored (snd (UsersService.update id nothing w)) = stored w.
Proof.
  intros Hfind. cbv zeta.
  set (nothing := mkUpdateUserDto None None None None None None None None).
  assert (Hcid : u_role nothing = Some COMPANY ->
                 truthyStr (u_companyId nothing) = true) by discriminate.
  destruct (update_stored id nothing w user Hfind Hcid)
    as (dto' & Hr & Hus & Hps & Hsame & _).
  subst nothing.
  rewrite (Hsame eq_refl) in Hr, Hus.
  rewrite applySet_nothing in Hr. rewrite updateFirst_nothing in Hus.
  split; [exact Hr|]. unfold stored. rewrite Hus, Hps. reflexivity.
Qed.

(** X4.  [remove] of a stored user deletes one document: it succeeds, the
    collection has one document less, the users under every other id are as
    they were, and the providers are as they were. *)
Theorem remove_deletes_one (id : string) (w : World) (user : UserDocument) :
  find (userModel.byId id) (users w) = Some user ->
  fst (UsersService.remove id w) = Ok tt
  /\ S (length (users (snd (UsersService.remove id w)))) = length (users w)
  /\ (forall id',
         id' <> id ->
         find (userModel.byId id') (users (snd (UsersService.remove id w)))
         = find (userModel.byId id') (users w))
  /\ providers (snd (UsersService.remove id w)) = providers w.
Proof.
  intros Hfind. unfold UsersService.remove. run. rewrite Hfind.
  cbn [fst snd users providers].
  split; [reflexivity|]. split; [apply (deleteFirst_length _ _ _ Hfind)|].
  split; [|reflexivity].
  intros id' Hne. apply deleteFirst_other, Hne.
Qed.

(** X5.  A removed user is gone: when the stored ids are pairwise distinct,
    after [remove] of a stored id both [findOne] and a second [remove] of that
    id raise NotFoundException. *)
Theorem remove_then_not_found (id : string) (w : World) (user : UserDocument) :
  NoDup (map _id (users w)) ->
  find (userModel.byId id) (users w) = Some user ->
  let notFound :=
    NotFoundException ("Usuario con ID " ++ id ++ " no encontrado") in
  fst (UsersService.remove id w) = Ok tt
  /\ fst (UsersService.findOne id (snd (UsersService.remove id w)))
     = Throw notFound
  /\ fst (UsersService.remove id (snd (UsersService.remove id w)))
     = Throw notFound.
Proof.
  intros Hnd Hfind. cbv zeta.
  pose proof (deleteFirst_gone id (users w) Hnd) as Hgone.
  unfold UsersService.remove, UsersService.findOne. run. rewrite Hfind.
  cbn [fst snd users]. rewrite Hgone. repeat split; reflexivity.
Qed.
End StoredUsers.

(** ** UsersService with [currentUser]: who may do what *)

Lemma companyDiffers_same (a : option string) : companyDiffers a a = false.
Proof.
  destruct a as [x|]; simpl; [|reflexivity].
  rewrite String.eqb_refl. reflexivity.
Qed.

Lemma otherCompany_allowed (currentUser : option UserDocument)
      (user : UserDocument) :
  (forall cu, currentUser = Some cu -> role cu = COMPANY ->
              companyId user = companyId cu) ->
  otherCompany currentUser user = false.
Proof.
  intros Hallowed. destruct currentUser as [cu|]; simpl; [|reflexivity].
  destruct (UserRole_eqb (role cu) COMPANY) eqn:Er; [|reflexivity].
  apply UserRole_eqb_eq in Er.
  rewrite (Hallowed cu eq_refl Er). apply companyDiffers_same.
Qed.

Section Scoped.
Context `{Bcrypt}.

(** X8.  The company check binds COMPANY users only.  [findOne] returns the
    stored user, and leaves the collections alone, whenever there is no
    current user, or the current user has another role, or it is a COMPANY
    user of the stored user's own company. *)
Theorem findOne_allowed (id : string) (w : World)
        (currentUser : option UserDocument) (target : UserDocument) :
  find (userModel.byId id) (users w) = Some target ->
  (forall cu, currentUser = Some cu -> role cu = COMPANY ->
              companyId target = companyId cu) ->
  fst (ScopedUsersService.findOne id currentUser w) = Ok target
  /\ stored (snd (ScopedUsersService.findOne id currentUser w)) = stored w.
Proof.
  intros Hfind Hallowed.
  apply otherCompany_allowed in Hallowed.
  unfold ScopedUsersService.findOne. run. rewrite Hfind, Hallowed.
  split; reflexivity.
Qed.

(** X9.  A COMPANY user cannot hand out the ADMIN role, not even inside its
    own company: [update] with role ADMIN raises ForbiddenException and writes
    nothing. *)
Theorem company_cannot_assign_admin
        (id : string) (w : World) (currentUser target : UserDocument)
        (updateUserDto : UpdateUserDto) :
  role currentUser = COMPANY ->
  find (userModel.byId id) (users w) = Some target ->
  companyId target = companyId currentUser ->
  u_role updateUserDto = Some ADMIN ->
  fst (ScopedUsersService.update id updateUserDto (Some currentUser) w)
  = Throw (ForbiddenException "You cannot assign the ADMIN role")
  /\ stored (snd (ScopedUsersService.update id updateUserDto
                                            (Some currentUser) w))
     = stored w.
Proof.
  intros Hrole Hfind Hsame Hadmin.
  assert (Hother : otherCompany (Some currentUser) target = false).
  { apply otherCompany_allowed. intros cu [= <-] _. exact Hsame. }
  assert (Hcompany : currentRoleIs (Some currentUser) COMPANY = true).
  { unfold currentRoleIs. simpl. rewrite Hrole. reflexivity. }
  unfold ScopedUsersService.update, ScopedUsersService.findOne. run.
  rewrite Hfind, Hother. run. rewrite Hother, Hcompany, Hadmin.
  split; reflexivity.
Qed.

(** X10.  The company checks that [update] and [remove] repeat after [findOne]
    never fire: whatever the request, [update] does not raise "You can only
    update users from your company" and [remove] does not raise "You can only
    delete users from your company". *)
Theorem repeated_company_checks_never_fire
        (id : string) (updateUserDto : UpdateUserDto)
        (currentUser : option UserDocument) (w : World) :
  fst (ScopedUsersService.update id updateUserDto currentUser w)
  <> Throw (ForbiddenException "You can only update users from your company")
  /\ fst (ScopedUsersService.remove id currentUser w)
     <> Throw (ForbiddenException
                 "You can only delete users from your company").
Proof.
  unfold ScopedUsersService.update, ScopedUsersService.remove,
    ScopedUsersService.findOne, UsersService.hashPasswordIfAny.
  run.
  destruct (find (userModel.byId id) (users w)) as [user|] eqn:Hfind;
    [|split; discriminate].
  destruct (otherCompany currentUser user) eqn:Hother;
    [split; discriminate|].
  run. rewrite Hother. split.
  - destruct (currentRoleIs currentUser COMPANY
              && roleIs (u_role updateUserDto) ADMIN); [discriminate|].
    destruct (roleIs (u_role updateUserDto) COMPANY
              && negb (truthyStr (u_companyId updateUserDto)));
      [discriminate|].
    destruct (truthyStr (u_password updateUserDto));
      [destruct (u_password updateUserDto)|];
      run; try rewrite Hfind; cbn [option_map fst]; intros E;
      discriminate E.
  - run. try rewrite Hfind. cbn [fst]. intros E. discriminate E.
Qed.

(** X11.  [findAll] with a company returns the stored users of that company
    and no others, in the order of the collection; without one, or with the
    empty string, it returns every stored user. *)
Theorem findAll_by_company (company : option string) (w : World) :
  (truthyStr company = true ->
   exists found,
     fst (ScopedUsersService.findAll company w) = Ok found
     /\ found = filter (inCompany company) (users w)
     /\ forall u, In u found <-> In u (users w) /\ companyId u = company)
  /\ (truthyStr company = false ->
      fst (ScopedUsersService.findAll company w) = Ok (users w))
  /\ stored (snd (ScopedUsersService.findAll company w)) = stored w.
Proof.
  unfold ScopedUsersService.findAll.
  destruct (truthyStr company) eqn:Ht; run.
  - split; [|split; [discriminate|reflexivity]].
    intros _. eexists. split; [reflexivity|]. split; [reflexivity|].
    intros u. rewrite filter_In. unfold inCompany.
    destruct company as [c|]; [|discriminate].
    split; intros [Hin Hc]; (split; [exact Hin|]).
    + destruct (companyId u) as [c'|]; [|discriminate].
      apply String.eqb_eq in Hc. congruence.
    + rewrite Hc. apply String.eqb_refl.
  - split; [discriminate|]. split; reflexivity.
Qed.

(** X12.  For a caller the company check lets through, the revision with
    [currentUser] does what the plain one does: [findOne] and [remove] give
    the same answer and leave the same collections, and so does [update]
    unless a COMPANY user asks for the ADMIN role. *)
Theorem scoped_agrees_when_allowed
        (id : string) (updateUserDto : UpdateUserDto)
        (currentUser : option UserDocument) (w : World)
        (target : UserDocument) :
  find (userModel.byId id) (users w) = Some target ->
  (forall cu, currentUser = Some cu -> role cu = COMPANY ->
              companyId target = companyId cu) ->
  (fst (ScopedUsersService.findOne id currentUser w)
   = fst (UsersService.findOne id w)
   /\ stored (snd (ScopedUsersService.findOne id currentUser w))
      = stored (snd (UsersService.findOne id w)))
  /\ (fst (ScopedUsersService.remove id currentUser w)
      = fst (UsersService.remove id w)
      /\ stored (snd (ScopedUsersService.remove id currentUser w))
         = stored (snd (UsersService.remove id w)))
  /\ (currentRoleIs currentUser COMPANY
      && roleIs (u_role updateUserDto) ADMIN = false ->
      fst (ScopedUsersService.update id updateUserDto currentUser w)
      = fst (UsersService.update id updateUserDto w)
      /\ stored (snd (ScopedUsersService.update id updateUserDto
                                                currentUser w))
         = stored (snd (UsersService.update id updateUserDto w))).
Proof.
  intros Hfind Hallowed.
  apply otherCompany_allowed in Hallowed.
  unfold ScopedUsersService.remove, ScopedUsersService.update,
    ScopedUsersService.findOne, UsersService.findOne, UsersService.remove,
    UsersService.update, UsersService.hashPasswordIfAny.
  do 3 (run; try rewrite Hfind; try rewrite Hallowed).
  split; [split; reflexivity|]. split; [split; reflexivity|].
  intros Hnoadmin. rewrite Hnoadmin.
  destruct (roleIs (u_role updateUserDto) COMPANY
            && negb (truthyStr (u_companyId updateUserDto)));
    [split; reflexivity|].
  destruct (truthyStr (u_password updateUserDto));
    [destruct (u_password updateUserDto)|];
    run; try rewrite Hfind; cbn [option_map]; split; reflexivity.
Qed.
End Scoped.

(** ** AuthService: registering and logging in *)

Section Registration.
Context `{Bcrypt} `{JwtService JwtPayload}.

(** With a free email, [register] comes down to one successful [create]. *)
Lemma register_fresh (registerDto : RegisterDto) (w : World) :
  find (userModel.byEmail (r_email registerDto)) (users w) = None ->
  exists createUserDto w1,
    users w1 = users w /\ providers w1 = providers w
    /\ c_email createUserDto = r_email registerDto
    /\ c_password createUserDto = r_password registerDto
    /\ c_role createUserDto = r_role registerDto
    /\ c_isActive createUserDto = true
    /\ c_firstName createUserDto = r_firstName registerDto
    /\ c_lastName createUserDto = r_lastName registerDto
    /\ (r_role registerDto <> COMPANY ->
        c_companyId createUserDto = r_companyId registerDto)
    /\ fst (UsersService.create createUserDto w1)
       = Ok (createdUser createUserDto w1)
    /\ users (snd (UsersService.create createUserDto w1))
       = users w ++ [createdUser createUserDto w1]
    /\ providers (snd (UsersService.create createUserDto w1)) = providers w
    /\ AuthService.register registerDto w
       = (Ok (mkRegisterResponse
                (AuthService.generateToken
                   (UserAccount (createdUser createUserDto w1)))
                (withoutPassword
                   (UserAccount (createdUser createUserDto w1)))),
          snd (UsersService.create createUserDto w1)).
Proof.
  intros Hfind.
  destruct (UserRole_eqb (r_role registerDto) COMPANY) eqn:Er.
  - pose (D := mkCreateUserDto (toHex 24 (entropy w (S (drawn w))) "")
                 (r_firstName registerDto) (r_lastName registerDto)
                 (r_email registerDto) (r_password registerDto)
                 (r_role registerDto)
                 (Some (toHex 24 (entropy w (drawn w)) "")) true).
    pose (W1 := mkWorld (users w) (providers w) (entropy w)
                        (S (S (drawn w)))
                        (QFindOneByEmail Users (r_email registerDto)
                           :: queries w)).
    exists D, W1.
    destruct (create_fresh D W1) as (Hr & Hus & Hps);
      [exact Hfind
      |cbn [D c_role c_companyId]; rewrite objectId_truthy;
       apply andb_false_r|].
    do 8 (split; [reflexivity|]).
    split; [intros Hne; apply UserRole_eqb_eq in Er; contradiction|].
    split; [exact Hr|]. split; [exact Hus|]. split; [exact Hps|].
    assert (Hshape : AuthService.register registerDto w
              = (user <- UsersService.create D ;;
                 ret (mkRegisterResponse
                        (AuthService.generateToken (UserAccount user))
                        (withoutPassword (UserAccount user)))) W1).
    { unfold AuthService.register. run. rewrite Hfind, Er. reflexivity. }
    rewrite Hshape. unfold bind.
    destruct (UsersService.create D W1) as [r w2].
    simpl in Hr. subst r. reflexivity.
  - pose (D := mkCreateUserDto (toHex 24 (entropy w (drawn w)) "")
                 (r_firstName registerDto) (r_lastName registerDto)
                 (r_email registerDto) (r_password registerDto)
                 (r_role registerDto) (r_companyId registerDto) true).
    pose (W1 := mkWorld (users w) (providers w) (entropy w) (S (drawn w))
                        (QFindOneByEmail Users (r_email registerDto)
                           :: queries w)).
    exists D, W1.
    destruct (create_fresh D W1) as (Hr & Hus & Hps);
      [exact Hfind|cbn [D c_role]; rewrite Er; reflexivity|].
    do 8 (split; [reflexivity|]).
    split; [intros _; reflexivity|].
    split; [exact Hr|]. split; [exact Hus|]. split; [exact Hps|].
    assert (Hshape : AuthService.register registerDto w
              = (user <- UsersService.create D ;;
                 ret (mkRegisterResponse
                        (AuthService.generateToken (UserAccount user))
                        (withoutPassword (UserAccount user)))) W1).
    { unfold AuthService.register. run. rewrite Hfind, Er. reflexivity. }
    rewrite Hshape. unfold bind.
    destruct (UsersService.create D W1) as [r w2].
    simpl in Hr. subst r. reflexivity.
Qed.

(** X13.  [register] under a free email always succeeds, whatever the role.
    It adds exactly one user, active, with the email, the role and the names
    of the request, and leaves the providers alone.  It answers with every
    property of that user but the password, and with the token signed over
    the user's id, email, role, names and companyId.  For a role other than
    COMPANY the companyId of the request is the one stored (null when it is
    missing or empty). *)
Theorem register_free_email_succeeds (registerDto : RegisterDto) (w : World) :
  (forall u, In u (users w) -> email u <> r_email registerDto) ->
  exists user response,
    fst (AuthService.register registerDto w) = Ok response
    /\ users (snd (AuthService.register registerDto w)) = users w ++ [user]
    /\ providers (snd (AuthService.register registerDto w)) = providers w
    /\ email user = r_email registerDto
    /\ role user = r_role registerDto
    /\ firstName user = r_firstName registerDto
    /\ lastName user = r_lastName registerDto
    /\ isActive user = true
    /\ (r_role registerDto <> COMPANY ->
        companyId user
        = if truthyStr (r_companyId registerDto)
          then r_companyId registerDto else None)
    /\ rr_user response
       = mkUserResponse (_id user) (Some (userId user)) (email user)
                        (role user) (firstName user) (lastName user)
                        (companyId user) (isActive user)
    /\ access_token response
       = sign (mkJwtPayload (_id user) (email user) (role user)
                            (firstName user) (lastName user)
                            (if truthyStr (companyId user)
                             then companyId user else None)).
Proof.
  intros Hfree. apply find_byEmail_absent in Hfree.
  destruct (register_fresh registerDto w Hfree)
    as (dto & w1 & _ & _ & He & _ & Hrole & Hact & Hfirst & Hlast & Hcid
        & _ & Hus & Hps & Hrun).
  exists (createdUser dto w1). eexists. rewrite Hrun. cbn [fst snd].
  split; [reflexivity|]. split; [exact Hus|]. split; [exact Hps|].
  split; [exact He|]. split; [exact Hrole|]. split; [exact Hfirst|].
  split; [exact Hlast|]. split; [exact Hact|].
  split; [|split; reflexivity].
  intros Hne. cbn [createdUser companyId]. rewrite (Hcid Hne). reflexivity.
Qed.

(** X14.  Registering and then logging in.  When bcrypt accepts a password
    against its own digest, a [login] with the email and password of a
    registration that has just succeeded answers success, and the user it
    answers with is the user the registration answered with: the one with
    the email and role of the request, active. *)
Theorem register_then_login (registerDto : RegisterDto) (w : World) :
  (forall data rounds salt,
      compareSync data (hashWithSalt data rounds salt) = true) ->
  (forall u, In u (users w) -> email u <> r_email registerDto) ->
  exists registered answer,
    fst (AuthService.register registerDto w) = Ok registered
    /\ fst (AuthService.login
              (mkLoginDto (r_email registerDto) (r_password registerDto))
              (snd (AuthService.register registerDto w)))
       = Ok answer
    /\ success answer = true
    /\ ld_user (data answer) = rr_user registered
    /\ ur_email (rr_user registered) = r_email registerDto
    /\ ur_role (rr_user registered) = r_role registerDto
    /\ ur_isActive (rr_user registered) = true.
Proof.
  intros Hbcrypt Hfree. apply find_byEmail_absent in Hfree.
  destruct (register_fresh registerDto w Hfree)
    as (dto & w1 & _ & _ & He & Hpw & Hrole & Hact & _ & _ & _ & _ & Hus
        & _ & Hrun).
  rewrite Hrun. cbn [fst snd].
  set (w' := snd (UsersService.create dto w1)) in *.
  assert (Hacc : accountOf w' (r_email registerDto)
                           (UserAccount (createdUser dto w1))).
  { apply accountOf_user. rewrite Hus, (find_app_none _ _ _ Hfree). simpl.
    unfold userModel.byEmail. cbn [email createdUser].
    rewrite He, String.eqb_refl. reflexivity. }
  rewrite login_after_validateUser. cbn [l_email l_password].
  destruct (validateUser_account _ (r_password registerDto) _ _ Hacc)
    as [Hr _].
  destruct (AuthService.validateUser _ _ w') as [r w2].
  simpl in Hr. subst r.
  cbn [acc_password createdUser password].
  rewrite Hpw, Hbcrypt. cbn [acc_isActive createdUser isActive].
  rewrite Hact.
  eexists. eexists. split; [reflexivity|]. split; [reflexivity|].
  cbn [success data ld_user rr_user].
  split; [reflexivity|]. split; [reflexivity|].
  unfold withoutPassword.
  cbn [ur_email ur_role ur_isActive acc_email acc_role acc_isActive
       createdUser email role isActive].
  split; [exact He|]. split; [exact Hrole|exact Hact].
Qed.
End Registration.

(** ** ExpenseController: the body cannot name the approver *)

Section ApproverFromToken.
Context {R : Type} `{ExpenseService R}.

(** X15.  When the token carries an identity ([_id] or [sub]), the [userId]
    sent in the body plays no part: two bodies with the same reason give the
    same call to the service, for approval and for rejection.  And neither
    handler ever changes the reason of the body. *)
Theorem body_userId_cannot_override_token
        (id : string) (req : Request) (user : JwtUser)
        (first second : ApprovalDto) :
  req_user req = Some user ->
  present (ju_id user) \/ present (ju_sub user) ->
  a_reason first = a_reason second ->
  ExpenseController.approveInvoice id first req
  = ExpenseController.approveInvoice id second req
  /\ ExpenseController.rejectInvoice id first req
     = ExpenseController.rejectInvoice id second req
  /\ a_reason (fst (ExpenseController.approveInvoice id first req))
     = a_reason first
  /\ a_reason (fst (ExpenseController.rejectInvoice id first req))
     = a_reason first.
Proof.
  unfold present. intros Hu Hid Hreason.
  unfold ExpenseController.approveInvoice, ExpenseController.rejectInvoice,
    userAnd.
  rewrite Hu, Hreason.
  destruct (truthy (ju_id user)); [repeat split; reflexivity|].
  destruct Hid as [Hid|Hsub]; [discriminate|].
  rewrite Hsub. repeat split; reflexivity.
Qed.
End ApproverFromToken.

(** ** Configuration *)

Section ConfigurationDefaults.
Variable parseInt : option string -> nat -> Num.

Lemma orDefault_truthy (value : option string) (fallback : string) :
  fallback <> "" -> orDefault value fallback <> "".
Proof.
  intros Hfb. unfold orDefault, truthyStr.
  destruct value as [s|]; [|exact Hfb]. simpl.
  destruct (String.eqb s "") eqn:E; simpl; [exact Hfb|].
  apply String.eqb_neq, E.
Qed.

(** X16.  The configuration never comes out unusable: whatever the environment
    holds and whatever [parseInt] makes of PORT, the port is a number other
    than 0 and the token lifetime and the API URL are not empty.  A PORT that
    parses to a number other than 0 is the port; one that parses to NaN or to
    0 gives 3015; and an unset or empty JWT_EXPIRES_IN gives "1d". *)
Theorem configuration_defaults (env : ProcessEnv) :
  (exists n, port (configuration parseInt env) = Finite n /\ n <> 0%Z)
  /\ jwt_expiresIn (configuration parseInt env) <> ""
  /\ api_url (configuration parseInt env) <> ""
  /\ (forall n, parseInt (PORT env) 10 = Finite n -> n <> 0%Z ->
                port (configuration parseInt env) = Finite n)
  /\ (parseInt (PORT env) 10 = NaN \/ parseInt (PORT env) 10 = Finite 0 ->
      port (configuration parseInt env) = Finite 3015)
  /\ (JWT_EXPIRES_IN env = None \/ JWT_EXPIRES_IN env = Some "" ->
      jwt_expiresIn (configuration parseInt env) = "1d").
Proof.
  unfold configuration. cbn [port jwt_expiresIn api_url].
  split; [|split; [|split; [|split; [|split]]]].
  - destruct (parseInt (PORT env) 10) as [|n] eqn:E; simpl.
    + exists 3015%Z. split; [reflexivity|discriminate].
    + destruct (Z.eqb n 0) eqn:En; simpl.
      * exists 3015%Z. split; [reflexivity|discriminate].
      * exists n. split; [reflexivity|]. apply Z.eqb_neq, En.
  - apply orDefault_truthy. discriminate.
  - apply orDefault_truthy. discriminate.
  - intros n -> Hn. simpl. apply Z.eqb_neq in Hn. rewrite Hn. reflexivity.
  - intros [->| ->]; reflexivity.
  - intros [->| ->]; reflexivity.
Qed.
End ConfigurationDefaults.

(** ** InvoiceController: what the upload handlers answer *)

Section UploadAnswers.
Context {S V : Type} `{InvoiceUploads S V}.

(** X17.  [validateInvoice] and [uploadActaAceptacion] refuse a request
    without a file with status 400 before the service is called, so the store
    is as it was; [validateInvoice] does the same for a file without a buffer.
    Whatever [validateInvoice] throws is an HttpException: one thrown by the
    service goes through as it is, anything else becomes status 500.  A result
    of the service is passed on unchanged. *)
Theorem validateInvoice_answers (file : option MulterFile) (s : S) :
  (InvoiceController.bufferOf file = None ->
   InvoiceController.validateInvoice file s
   = (Failed (HttpException
                (TextBody
                   "No se recibió ningún archivo o el archivo está corrupto.")
                400), s))
  /\ (forall id,
         file = None ->
         InvoiceController.uploadActaAceptacion id file s
         = (Failed (HttpException (TextBody "No se recibió ningún archivo")
                                  400), s))
  /\ (forall error s',
         InvoiceController.validateInvoice file s = (Failed error, s') ->
         instanceofHttpException error = true)
  /\ (forall f b error s',
         file = Some f -> buffer f = Some b ->
         validateInvoiceFromImage b (mimetype f) s = (Failed error, s') ->
         instanceofHttpException error = false ->
         InvoiceController.validateInvoice file s
         = (Failed (HttpException
                      (TextBody
                        "Error procesando el archivo o validando la factura.")
                      500), s'))
  /\ (forall f b outcome s',
         file = Some f -> buffer f = Some b ->
         validateInvoiceFromImage b (mimetype f) s = (outcome, s') ->
         (forall error, outcome = Failed error ->
                        instanceofHttpException error = true) ->
         InvoiceController.validateInvoice file s = (outcome, s')).
Proof.
  unfold InvoiceController.validateInvoice,
    InvoiceController.uploadActaAceptacion.
  split; [|split; [|split; [|split]]].
  - intros Hb. destruct file as [f|]; [|reflexivity].
    cbn [InvoiceController.bufferOf] in *. rewrite Hb. reflexivity.
  - intros id ->. reflexivity.
  - intros error s' Hrun.
    destruct file as [f|]; [|injection Hrun as <- _; reflexivity].
    cbn [InvoiceController.bufferOf] in Hrun.
    destruct (buffer f) as [b|]; [|injection Hrun as <- _; reflexivity].
    destruct (validateInvoiceFromImage b (mimetype f) s) as [[v|e] s1];
      [discriminate|].
    destruct (instanceofHttpException e) eqn:Ee;
      injection Hrun as <- _; [exact Ee|reflexivity].
  - intros f b error s' -> Hb Hsvc Hnot.
    cbn [InvoiceController.bufferOf]. rewrite Hb, Hsvc, Hnot. reflexivity.
  - intros f b outcome s' -> Hb Hsvc Hhttp.
    cbn [InvoiceController.bufferOf]. rewrite Hb, Hsvc.
    destruct outcome as [v|e]; [reflexivity|].
    rewrite (Hhttp e eq_refl). reflexivity.
Qed.

(** X18.  [uploadInvoiceAndActa] answers every failure of the service with
    status 500, also when the service threw a 400 or a 404: the answer keeps
    only the message of what was thrown.  A result of the service comes back
    wrapped with [success] set.  The store is what the service left. *)
Theorem uploadInvoiceAndActa_answers
        (files : list MulterFile) (req : Request) (s : S) :
  (forall error s',
      uploadFiles files (req_user req) s = (Failed error, s') ->
      InvoiceController.uploadInvoiceAndActa files req s
      = (Failed (HttpException
                   (UploadErrorBody "Error al subir archivos"
                                    (thrownMessage error))
                   500), s'))
  /\ (forall result s',
         uploadFiles files (req_user req) s = (Done result, s') ->
         InvoiceController.uploadInvoiceAndActa files req s
         = (Done (mkUploadResponse true "Archivos subidos exitosamente"
                                   result), s'))
  /\ (forall thrown s',
         InvoiceController.uploadInvoiceAndActa files req s
         = (Failed thrown, s') ->
         thrownStatus thrown = 500
         /\ thrownMessage thrown = "Error al subir archivos").
Proof.
  unfold InvoiceController.uploadInvoiceAndActa.
  split; [|split].
  - intros error s' ->. reflexivity.
  - intros result s' ->. reflexivity.
  - intros thrown s' Hrun.
    destruct (uploadFiles files (req_user req) s) as [[v|e] s1];
      [discriminate|].
    injection Hrun as <- _. split; reflexivity.
Qed.
End UploadAnswers.

(** ** UsersService: what [update] does to the password *)

Lemma find_byEmail_updateFirst (id e : string) (d : UpdateUserDto)
      (us : list UserDocument) (user : UserDocument) :
  u_email d = None ->
  find (userModel.byId id) us = Some user ->
  find (userModel.byEmail e) us = Some user ->
  find (userModel.byEmail e) (userModel.updateFirst id d us)
  = Some (userModel.applySet d user).
Proof.
  intros Hkeep.
  assert (Hsame : forall u,
             userModel.byEmail e (userModel.applySet d u)
             = userModel.byEmail e u).
  { intros u. unfold userModel.byEmail, userModel.applySet.
    cbn [email]. rewrite Hkeep. reflexivity. }
  induction us as [|x rest IH]; simpl; [discriminate|].
  destruct (userModel.byId id x) eqn:Eid.
  - intros [= ->] Hmail. simpl. rewrite Hsame.
    destruct (userModel.byEmail e user) eqn:Ee; [reflexivity|].
    apply find_some in Hmail as [_ Hb]. congruence.
  - intros Hid Hmail. simpl.
    destruct (userModel.byEmail e x) eqn:Ee.
    + injection Hmail as ->.
      apply find_some in Hid as [_ Hid]. congruence.
    + apply IH; assumption.
Qed.

Section PasswordChange.
Context `{Bcrypt}.

(** X6.  An empty password is stored as it is.  [update] of a stored user with
    the empty string for password does not hash: it draws no salt, and the
    stored password becomes the empty string. *)
Theorem update_empty_password_stored_as_is
        (id : string) (updateUserDto : UpdateUserDto) (w : World)
        (user : UserDocument) :
  find (userModel.byId id) (users w) = Some user ->
  (u_role updateUserDto = Some COMPANY ->
   truthyStr (u_companyId updateUserDto) = true) ->
  u_password updateUserDto = Some "" ->
  exists doc,
    fst (UsersService.update id updateUserDto w) = Ok doc
    /\ find (userModel.byId id)
            (users (snd (UsersService.update id updateUserDto w)))
       = Some doc
    /\ password doc = ""
    /\ drawn (snd (UsersService.update id updateUserDto w)) = drawn w.
Proof.
  intros Hfind Hcid Hp.
  assert (Hcheck : roleIs (u_role updateUserDto) COMPANY
                   && negb (truthyStr (u_companyId updateUserDto)) = false).
  { destruct (roleIs (u_role updateUserDto) COMPANY) eqn:Er; [|reflexivity].
    destruct (u_role updateUserDto) as [r|]; [|discriminate].
    simpl in Er. apply UserRole_eqb_eq in Er. subst r.
    rewrite (Hcid eq_refl). reflexivity. }
  unfold UsersService.update, UsersService.hashPasswordIfAny.
  rewrite Hp. cbn [truthyStr ofOptString truthy String.eqb negb].
  run. rewrite Hfind, Hcheck. run. rewrite Hfind. cbn [option_map].
  eexists. split; [reflexivity|]. cbn [fst snd users drawn].
  split; [apply find_updateFirst, Hfind|].
  split; [|reflexivity].
  unfold userModel.applySet. cbn [password]. rewrite Hp. reflexivity.
Qed.

(** X7.  Changing the password and then presenting it.  When bcrypt accepts a
    password against its own digest, and the email of a stored user resolves
    to that user, then after an [update] that carries a password and leaves
    the email alone, [validateUser] with that email and the new password
    returns the updated user. *)
Theorem update_password_then_validateUser
        (id : string) (updateUserDto : UpdateUserDto) (w : World)
        (user : UserDocument) (p : string) :
  (forall data rounds salt,
      compareSync data (hashWithSalt data rounds salt) = true) ->
  find (userModel.byId id) (users w) = Some user ->
  find (userModel.byEmail (email user)) (users w) = Some user ->
  (u_role updateUserDto = Some COMPANY ->
   truthyStr (u_companyId updateUserDto) = true) ->
  u_email updateUserDto = None ->
  u_password updateUserDto = Some p ->
  truthyStr (Some p) = true ->
  exists doc,
    fst (UsersService.update id updateUserDto w) = Ok doc
    /\ fst (AuthService.validateUser
              (email user) p (snd (UsersService.update id updateUserDto w)))
       = Ok (Some (UserAccount doc)).
Proof.
  intros Hbcrypt Hfind Hmail Hcid Hkeep Hp Ht.
  assert (Hcheck : roleIs (u_role updateUserDto) COMPANY
                   && negb (truthyStr (u_companyId updateUserDto)) = false).
  { destruct (roleIs (u_role updateUserDto) COMPANY) eqn:Er; [|reflexivity].
    destruct (u_role updateUserDto) as [r|]; [|discriminate].
    simpl in Er. apply UserRole_eqb_eq in Er. subst r.
    rewrite (Hcid eq_refl). reflexivity. }
  unfold UsersService.update, UsersService.hashPasswordIfAny.
  rewrite Hp, Ht. run. rewrite Hfind, Hcheck. run. rewrite Hfind.
  cbn [option_map].
  eexists. split; [reflexivity|]. cbn [fst snd].
  unfold AuthService.validateUser. run.
  rewrite (find_byEmail_updateFirst id (email user) _ (users w) user);
    [|exact Hkeep|exact Hfind|exact Hmail].
  unfold userModel.applySet at 1. cbn [acc_password password u_password].
  rewrite Hbcrypt. reflexivity.
Qed.
End PasswordChange.

(** * The properties on the sample data *)

(** [approver_three_way_fallback] on three requests to approve or reject
    expense e1 whose body names "cuerpo": one with [_id], one with only
    [sub], one with neither. *)
Lemma approver_three_way_fallback_witness :
  a_userId (fst (ExpenseController.approveInvoice
                   (H := specExpenseService) "e1" cuerpo
                   (mkRequest (Some tokenWithId))))
  = JsString "u1"
  /\ a_userId (fst (ExpenseController.approveInvoice
                      (H := specExpenseService) "e1" cuerpo
                      (mkRequest (Some tokenWithSub))))
     = JsString "s1"
  /\ a_userId (fst (ExpenseController.rejectInvoice
                      (H := specExpenseService) "e1" cuerpo
                      (mkRequest (Some tokenBare))))
     = JsString "cuerpo".
Proof.
  pose proof (approver_three_way_fallback (H := specExpenseService)
                "e1" cuerpo) as F.
  split; [|split].
  - rewrite (proj1 (proj1 (F (mkRequest (Some tokenWithId)) tokenWithId
                             eq_refl) eq_refl)).
    reflexivity.
  - rewrite (proj1 (proj1 (proj2 (F (mkRequest (Some tokenWithSub))
                                    tokenWithSub eq_refl))
                          eq_refl eq_refl)).
    reflexivity.
  - rewrite (proj2 (proj2 (proj2 (F (mkRequest (Some tokenBare))
                                    tokenBare eq_refl))
                          eq_refl eq_refl)).
    reflexivity.
Defined.

(** [reject_requires_reason]: rejecting expense e1 without a reason, then
    with one, and rejecting invoice f1 with one. *)
Lemma reject_requires_reason_witness :
  (exists message,
      respond (snd (ExpenseController.rejectInvoice
                      "e1" sinMotivo (mkRequest (Some tokenWithId))))
              ledger0
      = (Throw (BadRequestException message), ledger0))
  /\ (exists e l',
      respond (snd (ExpenseController.rejectInvoice
                      "e1" conMotivo (mkRequest (Some tokenWithId))))
              ledger0
      = (Ok e, l')
      /\ (present (a_reason conMotivo)
          /\ findExpense "e1" l' = Some e
          /\ e_status e = REJECTED
          /\ e_rejectionReason e = a_reason conMotivo))
  /\ (exists i l',
      InvoiceController.rejectInvoice
        "f1" (mkRejectBody (JsString "sin acta")) ledger0
      = (Ok i, l')
      /\ (present (JsString "sin acta")
          /\ findInvoice "f1" l' = Some i
          /\ i_status i = REJECTED
          /\ i_rejectionReason i = JsString "sin acta")).
Proof.
  split; [|split].
  - apply (proj1 reject_requires_reason "e1" sinMotivo
                 (mkRequest (Some tokenWithId)) tokenWithId ledger0);
      reflexivity.
  - eexists. eexists. split; [reflexivity|].
    apply (proj1 (proj2 (proj2 reject_requires_reason))
                 "e1" conMotivo (mkRequest (Some tokenWithId)) ledger0).
    reflexivity.
  - eexists. eexists. split; [reflexivity|].
    apply (proj2 (proj2 (proj2 reject_requires_reason))
                 "f1" (mkRejectBody (JsString "sin acta")) ledger0).
    reflexivity.
Defined.

(** [company_requires_companyId]: creating a COMPANY user without companyId,
    and turning the stored user u2 into one. *)
Lemma company_requires_companyId_witness :
  (exists message,
      fst (UsersService.create (H := toyBcrypt) altaSinCompania world0)
      = Throw (BadRequestException message)
      /\ stored (snd (UsersService.create (H := toyBcrypt)
                        altaSinCompania world0))
         = stored world0)
  /\ (fst (UsersService.update (H := toyBcrypt) "u2" cambioACompania world0)
      = Throw (BadRequestException
                 "Se requiere companyId para usuarios de tipo COMPANY")
      /\ stored (snd (UsersService.update (H := toyBcrypt) "u2"
                        cambioACompania world0))
         = stored world0).
Proof.
  split.
  - apply (proj1 (company_requires_companyId (H := toyBcrypt))
                 altaSinCompania world0); reflexivity.
  - apply (proj2 (company_requires_companyId (H := toyBcrypt))
                 "u2" cambioACompania world0 beto);
      [simpl; auto|reflexivity|reflexivity|reflexivity].
Defined.

(** [email_is_unique]: creating and registering under the email of the stored
    user u1, and creating under a free email. *)
Lemma email_is_unique_witness :
  (fst (UsersService.create (H := toyBcrypt) altaRepetida world0)
   = Throw (BadRequestException "El email ya está registrado")
   /\ stored (snd (UsersService.create (H := toyBcrypt) altaRepetida world0))
      = stored world0)
  /\ (fst (AuthService.register (H := toyBcrypt) (H0 := toyJwt)
             registroRepetido world0)
      = Throw (BadRequestException "El correo electrónico ya está registrado")
      /\ stored (snd (AuthService.register (H := toyBcrypt) (H0 := toyJwt)
                        registroRepetido world0))
         = stored world0)
  /\ NoDup (map email
                (users (snd (UsersService.create (H := toyBcrypt)
                               altaNueva world0)))).
Proof.
  pose proof (email_is_unique (H := toyBcrypt) (H0 := toyJwt))
    as (Hcreate & Hregister & Hdistinct).
  split; [|split].
  - apply (Hcreate altaRepetida world0 ana); [simpl; auto|reflexivity].
  - apply (Hregister registroRepetido world0 ana); [simpl; auto|reflexivity].
  - apply (Hdistinct altaNueva world0). simpl.
    repeat constructor; simpl; intuition discriminate.
Defined.

(** [company_scope_forbidden]: the COMPANY user u1 of acme reaching for the
    stored user u2 of another company. *)
Lemma company_scope_forbidden_witness :
  fst (ScopedUsersService.findOne "u2" (Some ana) world0)
  = Throw (ForbiddenException "You can only view users from your company")
  /\ fst (ScopedUsersService.update (H := toyBcrypt) "u2" cambioClave
            (Some ana) world0)
     = Throw (ForbiddenException "You can only view users from your company")
  /\ fst (ScopedUsersService.remove "u2" (Some ana) world0)
     = Throw (ForbiddenException "You can only view users from your company")
  /\ stored (snd (ScopedUsersService.remove "u2" (Some ana) world0))
     = stored world0.
Proof.
  assert (Hdiff : companyId beto <> companyId ana) by discriminate.
  pose proof (company_scope_forbidden (H := toyBcrypt) "u2" world0 ana beto
                cambioClave eq_refl eq_refl Hdiff)
    as ((Hfind & _) & (Hupdate & _) & (Hremove & Hstored)).
  repeat split; assumption.
Defined.

(** [missing_records_not_found]: the id u9 and the email nadie@x.pe, which no
    stored user has. *)
Lemma missing_records_not_found_witness :
  fst (UsersService.findOne "u9" world0)
  = Throw (NotFoundException "Usuario con ID u9 no encontrado")
  /\ fst (UsersService.update (H := toyBcrypt) "u9" cambioClave world0)
     = Throw (NotFoundException "Usuario con ID u9 no encontrado")
  /\ fst (UsersService.remove "u9" world0)
     = Throw (NotFoundException "Usuario con ID u9 no encontrado")
  /\ stored (snd (UsersService.remove "u9" world0)) = stored world0
  /\ fst (UsersService.findByEmail "nadie@x.pe" world0)
     = Throw (NotFoundException "Usuario con email nadie@x.pe no encontrado").
Proof.
  pose proof (missing_records_not_found (H := toyBcrypt)) as [Hid Hemail].
  assert (Hno : forall u, In u (users world0) -> _id u <> "u9").
  { intros u [<-|[<-|[]]]; discriminate. }
  assert (Hnone : forall u, In u (users world0) -> email u <> "nadie@x.pe").
  { intros u [<-|[<-|[]]]; discriminate. }
  destruct (Hid "u9" world0 Hno) as ((Hfind & _) & Hupdate & Hremove & Hst).
  destruct (Hupdate cambioClave) as [Hupd _].
  destruct (Hemail "nadie@x.pe" world0 Hnone) as [Hmail _].
  repeat split; assumption.
Defined.

(** [login_outcomes]: an unknown email, a wrong password for u1, the right
    password for the inactive u2, the right password for u1, and the right
    password for the provider. *)
Lemma login_outcomes_witness :
  fst (AuthService.login (H := toyBcrypt) (H0 := toyJwt)
         (mkLoginDto "nadie@x.pe" "secreto1") world0)
  = Throw (UnauthorizedException "Credenciales inválidas")
  /\ fst (AuthService.login (H := toyBcrypt) (H0 := toyJwt)
            (mkLoginDto "ana@acme.pe" "secreto4") world0)
     = Throw (UnauthorizedException "Credenciales inválidas")
  /\ fst (AuthService.login (H := toyBcrypt) (H0 := toyJwt)
            (mkLoginDto "beto@otra.pe" "secreto2") world0)
     = Throw (ForbiddenException "La cuenta está desactivada")
  /\ fst (AuthService.login (H := toyBcrypt) (H0 := toyJwt)
            (mkLoginDto "ana@acme.pe" "secreto1") world0)
     = Ok (mkLoginResponse true
             (mkLoginData
                (mkUserResponse "u1" (Some "p1") "ana@acme.pe" COMPANY
                                "Ana" "Flores" (Some "acme") true)
                "jwt.u1"))
  /\ fst (AuthService.login (H := toyBcrypt) (H0 := toyJwt)
            (mkLoginDto "caro@prov.pe" "secreto3") world0)
     = Ok (mkLoginResponse true
             (mkLoginData
                (mkUserResponse "p1" None "caro@prov.pe" PROVIDER
                                "Caro" "Luna" None true)
                "jwt.p1")).
Proof.
  pose proof (login_outcomes (H := toyBcrypt) (H0 := toyJwt)) as L.
  split; [|split; [|split; [|split]]].
  - apply (proj1 (L (mkLoginDto "nadie@x.pe" "secreto1") world0)).
    + intros u [<-|[<-|[]]]; discriminate.
    + intros p [<-|[<-|[]]]; discriminate.
  - apply (proj1 (proj1 (proj2 (L (mkLoginDto "ana@acme.pe" "secreto4")
                                  world0))
                        ana eq_refl)).
    reflexivity.
  - apply (proj1 (proj2 (proj1 (proj2 (L (mkLoginDto "beto@otra.pe"
                                                     "secreto2") world0))
                               beto eq_refl)));
      reflexivity.
  - apply (proj2 (proj2 (proj1 (proj2 (L (mkLoginDto "ana@acme.pe"
                                                     "secreto1") world0))
                               ana eq_refl)));
      reflexivity.
  - apply (proj2 (proj2 (proj1 (proj2 (proj2
             (L (mkLoginDto "caro@prov.pe" "secreto3") world0)))
             proveedor eq_refl eq_refl)));
      reflexivity.
Defined.

(** [passwords_are_hashed]: creating a user under a free email, and changing
    the password of the stored user u1. *)
Lemma passwords_are_hashed_witness :
  (exists doc,
      fst (UsersService.create (H := toyBcrypt) altaNueva world0) = Ok doc
      /\ users (snd (UsersService.create (H := toyBcrypt) altaNueva world0))
         = users world0 ++ [doc]
      /\ password doc = toyDigest "clave123" 10 100)
  /\ (exists doc,
      fst (UsersService.update (H := toyBcrypt) "u1" cambioClave world0)
      = Ok doc
      /\ find (userModel.byId "u1")
              (users (snd (UsersService.update (H := toyBcrypt) "u1"
                             cambioClave world0)))
         = Some doc
      /\ password doc = toyDigest "nuevaclave" 10 100).
Proof.
  pose proof (passwords_are_hashed (H := toyBcrypt))
    as (Hcreate & _ & Hupdate).
  split.
  - apply (Hcreate altaNueva world0).
    + intros u [<-|[<-|[]]]; discriminate.
    + discriminate.
  - apply (Hupdate "u1" cambioClave world0 ana "nuevaclave");
      [reflexivity|discriminate|reflexivity|reflexivity].
Defined.

(** C8 as first stated fails on the empty password.  The update [claveVacia]
    carries a password, the empty string; [update] of the stored user u1
    with it succeeds, and the password stored under u1 afterwards is the
    submitted string itself, which is no digest of it, whatever the cost and
    the salt. *)
Lemma passwords_are_hashed_counterexample :
  u_password claveVacia = Some ""
  /\ exists doc,
      fst (UsersService.update (H := toyBcrypt) "u1" claveVacia world0)
      = Ok doc
      /\ find (userModel.byId "u1")
              (users (snd (UsersService.update (H := toyBcrypt) "u1"
                             claveVacia world0)))
         = Some doc
      /\ password doc = ""
      /\ forall rounds salt,
          password doc
          <> hashWithSalt (Bcrypt := toyBcrypt) "" rounds salt.
Proof.
  split; [reflexivity|].
  eexists. split; [reflexivity|]. split; [reflexivity|].
  split; [reflexivity|].
  intros rounds salt. cbn [password hashWithSalt toyBcrypt].
  unfold toyDigest. cbn [append]. discriminate.
Qed.

(** [register_company_has_companyId]: registering a COMPANY user under a free
    email. *)
Lemma register_company_has_companyId_witness :
  fst (AuthService.register (H := toyBcrypt) (H0 := toyJwt)
         registroCompania world0)
  <> Throw (BadRequestException
              "Se requiere companyId para usuarios de tipo COMPANY")
  /\ exists user,
      users (snd (AuthService.register (H := toyBcrypt) (H0 := toyJwt)
                    registroCompania world0))
      = users world0 ++ [user]
      /\ companyId user = Some "000000000000000000000064".
Proof.
  pose proof (register_company_has_companyId (H := toyBcrypt) (H0 := toyJwt)
                registroCompania world0 eq_refl) as (_ & Hnever & Hfree).
  split; [exact Hnever|].
  destruct Hfree as (_ & user & _ & Husers & Hcompany).
  - intros u [<-|[<-|[]]]; discriminate.
  - exists user. split; [exact Husers|exact Hcompany].
Defined.

(** [users_take_precedence]: the provider registered under the email of the
    stored user u1 presents its own password. *)
Lemma users_take_precedence_witness :
  exists u,
    In u (users world0) /\ email u = "ana@acme.pe"
    /\ (compareSync (Bcrypt := toyBcrypt) "secreto4" (password u) = true ->
        fst (AuthService.validateUser (H := toyBcrypt)
               "ana@acme.pe" "secreto4" world0)
        = Ok (Some (UserAccount u)))
    /\ (compareSync (Bcrypt := toyBcrypt) "secreto4" (password u) = false ->
        fst (AuthService.validateUser (H := toyBcrypt)
               "ana@acme.pe" "secreto4" world0)
        = Ok None)
    /\ queries (snd (AuthService.validateUser (H := toyBcrypt)
                       "ana@acme.pe" "secreto4" world0))
       = QFindOneByEmail Users "ana@acme.pe" :: queries world0
    /\ (forall ps,
           fst (AuthService.validateUser (H := toyBcrypt)
                  "ana@acme.pe" "secreto4" (withProviders world0 ps))
           = fst (AuthService.validateUser (H := toyBcrypt)
                    "ana@acme.pe" "secreto4" world0))
    /\ (forall p,
           fst (AuthService.validateUser (H := toyBcrypt)
                  "ana@acme.pe" "secreto4" world0)
           <> Ok (Some (ProviderAccount p))).
Proof.
  apply (users_take_precedence (H := toyBcrypt)
           "ana@acme.pe" "secreto4" world0 ana);
    [simpl; auto|reflexivity].
Defined.

(** * The further properties on the sample data *)

Lemma substring_whole (s : string) : substring 0 (String.length s) s = s.
Proof.
  induction s as [|c rest IH]; simpl; [reflexivity|].
  rewrite IH. reflexivity.
Qed.

(** The stand-in for bcrypt accepts a password against its own digest. *)
Lemma toyBcrypt_accepts (data : string) (rounds : nat) (salt : N) :
  toyCompare data (toyDigest data rounds salt) = true.
Proof.
  unfold toyCompare, toyDigest.
  cbv beta iota delta [toHex].
  cbn [append String.length substring Nat.sub].
  rewrite Nat.sub_0_r, substring_whole. apply String.eqb_refl.
Qed.


Lemma update_touches_one_document_witness :
  exists doc,
    fst (UsersService.update (H := toyBcrypt) "u1" cambioClave world0)
    = Ok doc
    /\ find (userModel.byId "u1")
            (users (snd (UsersService.update (H := toyBcrypt) "u1"
                           cambioClave world0)))
       = Some doc
    /\ length (users (snd (UsersService.update (H := toyBcrypt) "u1"
                             cambioClave world0)))
       = 2
    /\ providers (snd (UsersService.update (H := toyBcrypt) "u1"
                         cambioClave world0))
       = providers world0
    /\ userId doc = "p1"
    /\ email doc = "ana@acme.pe"
    /\ role doc = COMPANY
    /\ companyId doc = Some "acme"
    /\ isActive doc = true.
Proof.
  assert (Hcid : u_role cambioClave = Some COMPANY ->
                 truthyStr (u_companyId cambioClave) = true) by discriminate.
  destruct (update_touches_one_document (H := toyBcrypt) "u1" cambioClave
              world0 ana eq_refl Hcid)
    as (doc & Hr & Hfind & Hlen & _ & Hps & Huid & _ & _ & Hmail & _
        & Hrole & Hcompany & Hactive).
  exists doc.
  split; [exact Hr|]. split; [exact Hfind|]. split; [exact Hlen|].
  split; [exact Hps|]. split; [exact (Huid eq_refl)|].
  split; [exact (Hmail eq_refl)|]. split; [exact (Hrole eq_refl)|].
  split; [exact (Hcompany eq_refl)|exact (Hactive eq_refl)].
Defined.

Lemma update_with_empty_dto_witness :
  fst (UsersService.update (H := toyBcrypt) "u2"
         (mkUpdateUserDto None None None None None None None None) world0)
  = Ok beto
  /\ stored (snd (UsersService.update (H := toyBcrypt) "u2"
                    (mkUpdateUserDto None None None None None None None None)
                    world0))
     = stored world0.
Proof.
  apply (update_with_empty_dto (H := toyBcrypt) "u2" world0 beto).
  reflexivity.
Defined.

Lemma remove_deletes_one_witness :
  fst (UsersService.remove "u1" world0) = Ok tt
  /\ S (length (users (snd (UsersService.remove "u1" world0)))) = 2
  /\ (forall id',
         id' <> "u1" ->
         find (userModel.byId id')
              (users (snd (UsersService.remove "u1" world0)))
         = find (userModel.byId id') (users world0))
  /\ providers (snd (UsersService.remove "u1" world0)) = providers world0.
Proof.
  apply (remove_deletes_one "u1" world0 ana). reflexivity.
Defined.

Lemma remove_then_not_found_witness :
  fst (UsersService.remove "u1" world0) = Ok tt
  /\ fst (UsersService.findOne "u1" (snd (UsersService.remove "u1" world0)))
     = Throw (NotFoundException "Usuario con ID u1 no encontrado")
  /\ fst (UsersService.remove "u1" (snd (UsersService.remove "u1" world0)))
     = Throw (NotFoundException "Usuario con ID u1 no encontrado").
Proof.
  apply (remove_then_not_found "u1" world0 ana); [|reflexivity].
  simpl. repeat constructor; simpl; intuition discriminate.
Defined.

Lemma findOne_allowed_witness :
  fst (ScopedUsersService.findOne "u1" (Some beto) world0) = Ok ana
  /\ stored (snd (ScopedUsersService.findOne "u1" (Some beto) world0))
     = stored world0.
Proof.
  apply (findOne_allowed "u1" world0 (Some beto) ana); [reflexivity|].
  intros cu [= <-] Hrole. discriminate Hrole.
Defined.

Lemma company_cannot_assign_admin_witness :
  fst (ScopedUsersService.update (H := toyBcrypt) "u1" ascensoAdmin
         (Some ana) world0)
  = Throw (ForbiddenException "You cannot assign the ADMIN role")
  /\ stored (snd (ScopedUsersService.update (H := toyBcrypt) "u1"
                    ascensoAdmin (Some ana) world0))
     = stored world0.
Proof.
  apply (company_cannot_assign_admin (H := toyBcrypt) "u1" world0 ana ana
           ascensoAdmin); reflexivity.
Defined.

Lemma findAll_by_company_witness :
  fst (ScopedUsersService.findAll (Some "acme") world0) = Ok [ana]
  /\ fst (ScopedUsersService.findAll (Some "") world0) = Ok [ana; beto]
  /\ fst (ScopedUsersService.findAll None world0) = Ok [ana; beto].
Proof.
  split; [|split].
  - destruct (proj1 (findAll_by_company (Some "acme") world0) eq_refl)
      as (found & Hr & Hfound & _).
    rewrite Hr, Hfound. reflexivity.
  - apply (proj1 (proj2 (findAll_by_company (Some "") world0))).
    reflexivity.
  - apply (proj1 (proj2 (findAll_by_company None world0))). reflexivity.
Defined.

Lemma scoped_agrees_when_allowed_witness :
  (fst (ScopedUsersService.findOne "u1" (Some ana) world0)
   = fst (UsersService.findOne "u1" world0)
   /\ stored (snd (ScopedUsersService.findOne "u1" (Some ana) world0))
      = stored (snd (UsersService.findOne "u1" world0)))
  /\ (fst (ScopedUsersService.remove "u1" (Some ana) world0)
      = fst (UsersService.remove "u1" world0)
      /\ stored (snd (ScopedUsersService.remove "u1" (Some ana) world0))
         = stored (snd (UsersService.remove "u1" world0)))
  /\ (fst (ScopedUsersService.update (H := toyBcrypt) "u1" cambioClave
             (Some ana) world0)
      = fst (UsersService.update (H := toyBcrypt) "u1" cambioClave world0)
      /\ stored (snd (ScopedUsersService.update (H := toyBcrypt) "u1"
                        cambioClave (Some ana) world0))
         = stored (snd (UsersService.update (H := toyBcrypt) "u1"
                          cambioClave world0))).
Proof.
  assert (Hallowed : forall cu, Some ana = Some cu -> role cu = COMPANY ->
                                companyId ana = companyId cu).
  { intros cu [= <-] _. reflexivity. }
  destruct (scoped_agrees_when_allowed (H := toyBcrypt) "u1" cambioClave
              (Some ana) world0 ana eq_refl Hallowed)
    as (Hfind & Hremove & Hupdate).
  split; [exact Hfind|]. split; [exact Hremove|].
  apply Hupdate. reflexivity.
Defined.

Lemma register_free_email_succeeds_witness :
  (exists user response,
      fst (AuthService.register (H := toyBcrypt) (H0 := toyJwt)
             registroUsuario world0)
      = Ok response
      /\ users (snd (AuthService.register (H := toyBcrypt) (H0 := toyJwt)
                       registroUsuario world0))
         = users world0 ++ [user]
      /\ email user = "eva@nueva.pe"
      /\ role user = USER
      /\ isActive user = true
      /\ companyId user = Some "acme"
      /\ rr_user response
         = mkUserResponse (_id user) (Some (userId user)) (email user)
                          (role user) (firstName user) (lastName user)
                          (companyId user) (isActive user))
  /\ (exists user response,
      fst (AuthService.register (H := toyBcrypt) (H0 := toyJwt)
             registroCompania world0)
      = Ok response
      /\ users (snd (AuthService.register (H := toyBcrypt) (H0 := toyJwt)
                       registroCompania world0))
         = users world0 ++ [user]
      /\ email user = "dora@nueva.pe"
      /\ role user = COMPANY
      /\ ur_email (rr_user response) = "dora@nueva.pe").
Proof.
  split.
  - destruct (register_free_email_succeeds (H := toyBcrypt) (H0 := toyJwt)
                registroUsuario world0)
      as (user & response & Hr & Hus & _ & He & Hrole & _ & _ & Hact & Hcid
          & Hresp & _).
    + intros u [<-|[<-|[]]]; discriminate.
    + exists user, response.
      split; [exact Hr|]. split; [exact Hus|]. split; [exact He|].
      split; [exact Hrole|]. split; [exact Hact|].
      split; [|exact Hresp]. apply Hcid. discriminate.
  - destruct (register_free_email_succeeds (H := toyBcrypt) (H0 := toyJwt)
                registroCompania world0)
      as (user & response & Hr & Hus & _ & He & Hrole & _ & _ & _ & _
          & Hresp & _).
    + intros u [<-|[<-|[]]]; discriminate.
    + exists user, response.
      split; [exact Hr|]. split; [exact Hus|]. split; [exact He|].
      split; [exact Hrole|]. rewrite Hresp. exact He.
Defined.

Lemma register_then_login_witness :
  exists registered answer,
    fst (AuthService.register (H := toyBcrypt) (H0 := toyJwt)
           registroUsuario world0)
    = Ok registered
    /\ fst (AuthService.login (H := toyBcrypt) (H0 := toyJwt)
              (mkLoginDto "eva@nueva.pe" "clave456")
              (snd (AuthService.register (H := toyBcrypt) (H0 := toyJwt)
                      registroUsuario world0)))
       = Ok answer
    /\ success answer = true
    /\ ld_user (data answer) = rr_user registered
    /\ ur_email (rr_user registered) = "eva@nueva.pe"
    /\ ur_role (rr_user registered) = USER
    /\ ur_isActive (rr_user registered) = true.
Proof.
  apply (register_then_login (H := toyBcrypt) (H0 := toyJwt)
           registroUsuario world0).
  - exact toyBcrypt_accepts.
  - intros u [<-|[<-|[]]]; discriminate.
Defined.

Lemma body_userId_cannot_override_token_witness :
  ExpenseController.approveInvoice (H := specExpenseService) "e1"
    (mkApprovalDto (JsString "u2") (JsString "ok"))
    (mkRequest (Some tokenWithSub))
  = ExpenseController.approveInvoice (H := specExpenseService) "e1"
      (mkApprovalDto JsUndefined (JsString "ok"))
      (mkRequest (Some tokenWithSub))
  /\ ExpenseController.rejectInvoice (H := specExpenseService) "e1"
       (mkApprovalDto (JsString "u2") (JsString "ok"))
       (mkRequest (Some tokenWithSub))
     = ExpenseController.rejectInvoice (H := specExpenseService) "e1"
         (mkApprovalDto JsUndefined (JsString "ok"))
         (mkRequest (Some tokenWithSub))
  /\ a_reason (fst (ExpenseController.approveInvoice
                      (H := specExpenseService) "e1"
                      (mkApprovalDto (JsString "u2") (JsString "ok"))
                      (mkRequest (Some tokenWithSub))))
     = JsString "ok"
  /\ a_reason (fst (ExpenseController.rejectInvoice
                      (H := specExpenseService) "e1"
                      (mkApprovalDto (JsString "u2") (JsString "ok"))
                      (mkRequest (Some tokenWithSub))))
     = JsString "ok".
Proof.
  apply (body_userId_cannot_override_token (H := specExpenseService) "e1"
           (mkRequest (Some tokenWithSub)) tokenWithSub);
    [reflexivity|right; reflexivity|reflexivity].
Defined.

Lemma configuration_defaults_witness :
  port (configuration toyParseInt envSet) = Finite 8080
  /\ port (configuration toyParseInt envEmpty) = Finite 3015
  /\ jwt_expiresIn (configuration toyParseInt envSet) = "1d"
  /\ api_url (configuration toyParseInt envEmpty) <> "".
Proof.
  split; [|split; [|split]].
  - apply (proj1 (proj2 (proj2 (proj2
             (configuration_defaults toyParseInt envSet)))));
      [reflexivity|discriminate].
  - apply (proj1 (proj2 (proj2 (proj2 (proj2
             (configuration_defaults toyParseInt envEmpty)))))).
    left; reflexivity.
  - apply (proj2 (proj2 (proj2 (proj2 (proj2
             (configuration_defaults toyParseInt envSet)))))).
    right; reflexivity.
  - apply (proj1 (proj2 (proj2
             (configuration_defaults toyParseInt envEmpty)))).
Defined.

Lemma validateInvoice_answers_witness :
  InvoiceController.validateInvoice (H := toyUploads) (Some sinBuffer) 0
  = (Failed (HttpException
               (TextBody
                  "No se recibió ningún archivo o el archivo está corrupto.")
               400), 0)
  /\ InvoiceController.uploadActaAceptacion (H := toyUploads) "f1" None 0
     = (Failed (HttpException (TextBody "No se recibió ningún archivo") 400),
        0)
  /\ InvoiceController.validateInvoice (H := toyUploads) (Some facturaGif) 0
     = (Failed (HttpException
                  (TextBody
                     "Error procesando el archivo o validando la factura.")
                  500), 1)
  /\ InvoiceController.validateInvoice (H := toyUploads) (Some facturaXml) 0
     = (Failed (Raised (NotFoundException "Factura no encontrada")), 1)
  /\ InvoiceController.validateInvoice (H := toyUploads) (Some facturaPdf) 0
     = (Done "PDF", 1).
Proof.
  split; [|split; [|split; [|split]]].
  - apply (proj1 (validateInvoice_answers (H := toyUploads)
                    (Some sinBuffer) 0)).
    reflexivity.
  - apply (proj1 (proj2 (validateInvoice_answers (H := toyUploads) None 0))).
    reflexivity.
  - apply (proj1 (proj2 (proj2 (proj2
             (validateInvoice_answers (H := toyUploads)
                (Some facturaGif) 0))))
             facturaGif "GIF" (Raised (TypeError "content is not iterable")));
      reflexivity.
  - apply (proj2 (proj2 (proj2 (proj2
             (validateInvoice_answers (H := toyUploads)
                (Some facturaXml) 0))))
             facturaXml "XML"); [reflexivity|reflexivity|reflexivity|].
    intros error [= <-]. reflexivity.
  - apply (proj2 (proj2 (proj2 (proj2
             (validateInvoice_answers (H := toyUploads)
                (Some facturaPdf) 0))))
             facturaPdf "PDF"); [reflexivity|reflexivity|reflexivity|].
    intros error E. discriminate E.
Defined.

Lemma uploadInvoiceAndActa_answers_witness :
  InvoiceController.uploadInvoiceAndActa (H := toyUploads) [facturaPdf]
    (mkRequest (Some tokenWithId)) 0
  = (Failed (HttpException
               (UploadErrorBody "Error al subir archivos"
                                "Se requieren dos archivos")
               500), 1)
  /\ InvoiceController.uploadInvoiceAndActa (H := toyUploads)
       [facturaPdf; facturaPdf] (mkRequest (Some tokenWithId)) 0
     = (Done (mkUploadResponse true "Archivos subidos exitosamente"
                               "subidos"), 1).
Proof.
  split.
  - apply (proj1 (uploadInvoiceAndActa_answers (H := toyUploads)
                    [facturaPdf] (mkRequest (Some tokenWithId)) 0)
                 (Raised (BadRequestException "Se requieren dos archivos"))).
    reflexivity.
  - apply (proj1 (proj2 (uploadInvoiceAndActa_answers (H := toyUploads)
                           [facturaPdf; facturaPdf]
                           (mkRequest (Some tokenWithId)) 0))).
    reflexivity.
Defined.

Lemma update_empty_password_stored_as_is_witness :
  exists doc,
    fst (UsersService.update (H := toyBcrypt) "u1" claveVacia world0) = Ok doc
    /\ find (userModel.byId "u1")
            (users (snd (UsersService.update (H := toyBcrypt) "u1"
                           claveVacia world0)))
       = Some doc
    /\ password doc = ""
    /\ drawn (snd (UsersService.update (H := toyBcrypt) "u1" claveVacia
                     world0))
       = drawn world0.
Proof.
  apply (update_empty_password_stored_as_is (H := toyBcrypt) "u1" claveVacia
           world0 ana); [reflexivity|discriminate|reflexivity].
Defined.

Lemma update_password_then_validateUser_witness :
  exists doc,
    fst (UsersService.update (H := toyBcrypt) "u1" cambioClave world0)
    = Ok doc
    /\ fst (AuthService.validateUser (H := toyBcrypt)
              "ana@acme.pe" "nuevaclave"
              (snd (UsersService.update (H := toyBcrypt) "u1" cambioClave
                      world0)))
       = Ok (Some (UserAccount doc)).
Proof.
  apply (update_password_then_validateUser (H := toyBcrypt) "u1" cambioClave
           world0 ana "nuevaclave");
    [exact toyBcrypt_accepts|reflexivity|reflexivity|discriminate
    |reflexivity|reflexivity|reflexivity].
Defined.
